(** * Moderation cog (src/cogs/moderation.py), shallow embedding

    Every handler of the cog is an [M] computation: a state and exception
    monad over a [World] that records each external call the handler issues
    (platform calls and store calls, in order), whether the interaction has
    already been answered ([interaction.response.is_done()]), the bot's
    configuration ([self.bot.config]) and the store.  The answers of the
    chat platform are given by an oracle [ext] ([Call -> Outcome]); store
    calls are answered by a model of the store interface of the spec,
    unless the oracle injects a failure for them. *)

From Stdlib Require Import ZArith String Ascii List Bool Lia.
From Stdlib Require Import Numbers.DecimalString.
Import ListNotations.
Open Scope string_scope.
Open Scope Z_scope.
Set Warnings "-register-all".

(** ** Python values (configuration dictionaries, server settings) *)

(** A Python [str] is a sequence of code points; [lit] writes an ASCII
    literal as one. *)
Definition pystr := list Z.

Definition lit (s : string) : pystr :=
  map (fun c => Z.of_nat (nat_of_ascii c)) (list_ascii_of_string s).

Inductive PyVal : Type :=
| PNone
| PBool (b : bool)
| PInt (z : Z)
| PStr (s : pystr)
| PList (l : list PyVal)
| PDict (d : list (string * PyVal)).

(** Python truthiness. *)
Definition truthy (v : PyVal) : bool :=
  match v with
  | PNone => false
  | PBool b => b
  | PInt z => negb (z =? 0)
  | PStr s => match s with [] => false | _ => true end
  | PList l => negb (Nat.eqb (List.length l) 0)
  | PDict d => negb (Nat.eqb (List.length d) 0)
  end.

Fixpoint assoc (k : string) (d : list (string * PyVal)) : option PyVal :=
  match d with
  | [] => None
  | (k', v) :: d' => if String.eqb k k' then Some v else assoc k d'
  end.

(** Python exceptions the handlers can meet.  [NotFound] and [Forbidden]
    are subclasses of [discord.HTTPException]. *)
Inductive Exc : Type :=
| Forbidden
| NotFound
| HTTPException
| TimeoutError
| KeyError
| TypeError
| ValueError
| AttributeError
| OverflowError
| NotCallable                     (* TypeError: 'Command' object is not callable *)
| OtherError (msg : string).

Definition is_http (e : Exc) : bool :=
  match e with Forbidden | NotFound | HTTPException => true | _ => false end.
Definition is_forbidden (e : Exc) : bool :=
  match e with Forbidden => true | _ => false end.
Definition is_notfound (e : Exc) : bool :=
  match e with NotFound => true | _ => false end.
Definition is_timeout (e : Exc) : bool :=
  match e with TimeoutError => true | _ => false end.

(** [d.get(k, default)]: only dictionaries have [.get]. *)
Definition py_get (v : PyVal) (k : string) (default : PyVal) : PyVal + Exc :=
  match v with
  | PDict d => match assoc k d with Some x => inl x | None => inl default end
  | _ => inr AttributeError
  end.

(** [v[k]] with a string key. *)
Definition py_index (v : PyVal) (k : string) : PyVal + Exc :=
  match v with
  | PDict d => match assoc k d with Some x => inl x | None => inr KeyError end
  | _ => inr TypeError
  end.

(** *** Python strings

    The character classes the string methods and [int] consult come from
    the Unicode database of the interpreter: the tables below are those
    of CPython 3.11 (Unicode 14.0.0), as inclusive ranges of code points. *)

Fixpoint str_eqb (a b : pystr) : bool :=
  match a, b with
  | [], [] => true
  | x :: a', y :: b' => (x =? y) && str_eqb a' b'
  | _, _ => false
  end.

(** Non-ASCII whitespace ([Py_UNICODE_ISSPACE]). *)
Definition unicode_space : list (Z * Z) :=
  [(133, 133); (160, 160); (5760, 5760); (8192, 8202); (8232, 8233); (8239, 8239); (8287, 8287); (12288, 12288)].

(** The zeros of the non-ASCII decimal digits ([unicodedata.decimal]):
    each run of ten code points from a zero holds the digits 0 to 9. *)
Definition unicode_decimal_zeros : list Z :=
  [1632; 1776; 1984; 2406; 2534; 2662; 2790; 2918; 3046; 3174; 3302; 3430; 3558; 3664; 3792; 3872; 4160; 4240; 6112; 6160; 6470; 6608; 6784; 6800; 6992; 7088; 7232; 7248; 42528; 43216; 43264; 43472; 43504; 43600; 44016; 65296; 66720; 68912; 69734; 69872; 69942; 70096; 70384; 70736; 70864; 71248; 71360; 71472; 71904; 72016; 72784; 73040; 73120; 92768; 92864; 93008; 120782; 120792; 120802; 120812; 120822; 123200; 123632; 125264; 130032].

(** Non-ASCII digits that are not decimal digits ([str.isdigit] holds,
    [unicodedata.decimal] has no value): superscripts, circled digits, ... *)
Definition unicode_digit_only : list (Z * Z) :=
  [(178, 179); (185, 185); (4969, 4977); (6618, 6618); (8304, 8304); (8308, 8313); (8320, 8329); (9312, 9320); (9332, 9340); (9352, 9360); (9450, 9450); (9461, 9469); (9471, 9471); (10102, 10110); (10112, 10120); (10122, 10130); (68160, 68163); (69216, 69224); (69714, 69722); (127232, 127242)].

(** One-character lowercase mappings of non-ASCII code points:
    [(lo, hi, step, delta)] maps [lo], [lo + step], ..., up to [hi], to the
    code point [delta] further. *)
Definition unicode_lower : list (Z * Z * Z * Z) :=
  [(192, 214, 1, 32); (216, 222, 1, 32); (256, 302, 2, 1); (306, 310, 2, 1); (313, 327, 2, 1); (330, 374, 2, 1); (376, 376, 1, -121); (377, 381, 2, 1); (385, 385, 1, 210); (386, 388, 2, 1); (390, 390, 1, 206); (391, 391, 1, 1); (393, 394, 1, 205); (395, 395, 1, 1); (398, 398, 1, 79); (399, 399, 1, 202); (400, 400, 1, 203); (401, 401, 1, 1); (403, 403, 1, 205); (404, 404, 1, 207); (406, 406, 1, 211); (407, 407, 1, 209); (408, 408, 1, 1); (412, 412, 1, 211); (413, 413, 1, 213); (415, 415, 1, 214); (416, 420, 2, 1); (422, 422, 1, 218); (423, 423, 1, 1); (425, 425, 1, 218); (428, 428, 1, 1); (430, 430, 1, 218); (431, 431, 1, 1); (433, 434, 1, 217); (435, 437, 2, 1); (439, 439, 1, 219); (440, 440, 1, 1); (444, 444, 1, 1); (452, 452, 1, 2); (453, 453, 1, 1); (455, 455, 1, 2); (456, 456, 1, 1); (458, 458, 1, 2); (459, 475, 2, 1); (478, 494, 2, 1); (497, 497, 1, 2); (498, 500, 2, 1); (502, 502, 1, -97); (503, 503, 1, -56); (504, 542, 2, 1); (544, 544, 1, -130); (546, 562, 2, 1); (570, 570, 1, 10795); (571, 571, 1, 1); (573, 573, 1, -163); (574, 574, 1, 10792); (577, 577, 1, 1); (579, 579, 1, -195); (580, 580, 1, 69); (581, 581, 1, 71); (582, 590, 2, 1); (880, 882, 2, 1); (886, 886, 1, 1); (895, 895, 1, 116); (902, 902, 1, 38); (904, 906, 1, 37); (908, 908, 1, 64); (910, 911, 1, 63); (913, 929, 1, 32); (931, 939, 1, 32); (975, 975, 1, 8); (984, 1006, 2, 1); (1012, 1012, 1, -60); (1015, 1015, 1, 1); (1017, 1017, 1, -7); (1018, 1018, 1, 1); (1021, 1023, 1, -130); (1024, 1039, 1, 80); (1040, 1071, 1, 32); (1120, 1152, 2, 1); (1162, 1214, 2, 1); (1216, 1216, 1, 15); (1217, 1229, 2, 1); (1232, 1326, 2, 1); (1329, 1366, 1, 48); (4256, 4293, 1, 7264); (4295, 4295, 1, 7264); (4301, 4301, 1, 7264); (5024, 5103, 1, 38864); (5104, 5109, 1, 8); (7312, 7354, 1, -3008); (7357, 7359, 1, -3008); (7680, 7828, 2, 1); (7838, 7838, 1, -7615); (7840, 7934, 2, 1); (7944, 7951, 1, -8); (7960, 7965, 1, -8); (7976, 7983, 1, -8); (7992, 7999, 1, -8); (8008, 8013, 1, -8); (8025, 8031, 2, -8); (8040, 8047, 1, -8); (8072, 8079, 1, -8); (8088, 8095, 1, -8); (8104, 8111, 1, -8); (8120, 8121, 1, -8); (8122, 8123, 1, -74); (8124, 8124, 1, -9); (8136, 8139, 1, -86); (8140, 8140, 1, -9); (8152, 8153, 1, -8); (8154, 8155, 1, -100); (8168, 8169, 1, -8); (8170, 8171, 1, -112); (8172, 8172, 1, -7); (8184, 8185, 1, -128); (8186, 8187, 1, -126); (8188, 8188, 1, -9); (8486, 8486, 1, -7517); (8490, 8490, 1, -8383); (8491, 8491, 1, -8262); (8498, 8498, 1, 28); (8544, 8559, 1, 16); (8579, 8579, 1, 1); (9398, 9423, 1, 26); (11264, 11311, 1, 48); (11360, 11360, 1, 1); (11362, 11362, 1, -10743); (11363, 11363, 1, -3814); (11364, 11364, 1, -10727); (11367, 11371, 2, 1); (11373, 11373, 1, -10780); (11374, 11374, 1, -10749); (11375, 11375, 1, -10783); (11376, 11376, 1, -10782); (11378, 11378, 1, 1); (11381, 11381, 1, 1); (11390, 11391, 1, -10815); (11392, 11490, 2, 1); (11499, 11501, 2, 1); (11506, 11506, 1, 1); (42560, 42604, 2, 1); (42624, 42650, 2, 1); (42786, 42798, 2, 1); (42802, 42862, 2, 1); (42873, 42875, 2, 1); (42877, 42877, 1, -35332); (42878, 42886, 2, 1); (42891, 42891, 1, 1); (42893, 42893, 1, -42280); (42896, 42898, 2, 1); (42902, 42920, 2, 1); (42922, 42922, 1, -42308); (42923, 42923, 1, -42319); (42924, 42924, 1, -42315); (42925, 42925, 1, -42305); (42926, 42926, 1, -42308); (42928, 42928, 1, -42258); (42929, 42929, 1, -42282); (42930, 42930, 1, -42261); (42931, 42931, 1, 928); (42932, 42946, 2, 1); (42948, 42948, 1, -48); (42949, 42949, 1, -42307); (42950, 42950, 1, -35384); (42951, 42953, 2, 1); (42960, 42960, 1, 1); (42966, 42968, 2, 1); (42997, 42997, 1, 1); (65313, 65338, 1, 32); (66560, 66599, 1, 40); (66736, 66771, 1, 40); (66928, 66938, 1, 39); (66940, 66954, 1, 39); (66956, 66962, 1, 39); (66964, 66965, 1, 39); (68736, 68786, 1, 64); (71840, 71871, 1, 32); (93760, 93791, 1, 32); (125184, 125217, 1, 34)].

(** Case-ignorable code points, and the cased code points that are not
    case-ignorable (the two properties [str.lower] consults for the final
    sigma). *)
Definition unicode_case_ignorable : list (Z * Z) :=
  [(39, 39); (46, 46); (58, 58); (94, 94); (96, 96); (168, 168); (173, 173); (175, 175); (180, 180); (183, 184); (688, 879); (884, 885); (890, 890); (900, 901); (903, 903); (1155, 1161); (1369, 1369); (1375, 1375); (1425, 1469); (1471, 1471); (1473, 1474); (1476, 1477); (1479, 1479); (1524, 1524); (1536, 1541); (1552, 1562); (1564, 1564); (1600, 1600); (1611, 1631); (1648, 1648); (1750, 1757); (1759, 1768); (1770, 1773); (1807, 1807); (1809, 1809); (1840, 1866); (1958, 1968); (2027, 2037); (2042, 2042); (2045, 2045); (2070, 2093); (2137, 2139); (2184, 2184); (2192, 2193); (2200, 2207); (2249, 2306); (2362, 2362); (2364, 2364); (2369, 2376); (2381, 2381); (2385, 2391); (2402, 2403); (2417, 2417); (2433, 2433); (2492, 2492); (2497, 2500); (2509, 2509); (2530, 2531); (2558, 2558); (2561, 2562); (2620, 2620); (2625, 2626); (2631, 2632); (2635, 2637); (2641, 2641); (2672, 2673); (2677, 2677); (2689, 2690); (2748, 2748); (2753, 2757); (2759, 2760); (2765, 2765); (2786, 2787); (2810, 2815); (2817, 2817); (2876, 2876); (2879, 2879); (2881, 2884); (2893, 2893); (2901, 2902); (2914, 2915); (2946, 2946); (3008, 3008); (3021, 3021); (3072, 3072); (3076, 3076); (3132, 3132); (3134, 3136); (3142, 3144); (3146, 3149); (3157, 3158); (3170, 3171); (3201, 3201); (3260, 3260); (3263, 3263); (3270, 3270); (3276, 3277); (3298, 3299); (3328, 3329); (3387, 3388); (3393, 3396); (3405, 3405); (3426, 3427); (3457, 3457); (3530, 3530); (3538, 3540); (3542, 3542); (3633, 3633); (3636, 3642); (3654, 3662); (3761, 3761); (3764, 3772); (3782, 3782); (3784, 3789); (3864, 3865); (3893, 3893); (3895, 3895); (3897, 3897); (3953, 3966); (3968, 3972); (3974, 3975); (3981, 3991); (3993, 4028); (4038, 4038); (4141, 4144); (4146, 4151); (4153, 4154); (4157, 4158); (4184, 4185); (4190, 4192); (4209, 4212); (4226, 4226); (4229, 4230); (4237, 4237); (4253, 4253); (4348, 4348); (4957, 4959); (5906, 5908); (5938, 5939); (5970, 5971); (6002, 6003); (6068, 6069); (6071, 6077); (6086, 6086); (6089, 6099); (6103, 6103); (6109, 6109); (6155, 6159); (6211, 6211); (6277, 6278); (6313, 6313); (6432, 6434); (6439, 6440); (6450, 6450); (6457, 6459); (6679, 6680); (6683, 6683); (6742, 6742); (6744, 6750); (6752, 6752); (6754, 6754); (6757, 6764); (6771, 6780); (6783, 6783); (6823, 6823); (6832, 6862); (6912, 6915); (6964, 6964); (6966, 6970); (6972, 6972); (6978, 6978); (7019, 7027); (7040, 7041); (7074, 7077); (7080, 7081); (7083, 7085); (7142, 7142); (7144, 7145); (7149, 7149); (7151, 7153); (7212, 7219); (7222, 7223); (7288, 7293); (7376, 7378); (7380, 7392); (7394, 7400); (7405, 7405); (7412, 7412); (7416, 7417); (7468, 7530); (7544, 7544); (7579, 7679); (8125, 8125); (8127, 8129); (8141, 8143); (8157, 8159); (8173, 8175); (8189, 8190); (8203, 8207); (8216, 8217); (8228, 8228); (8231, 8231); (8234, 8238); (8288, 8292); (8294, 8303); (8305, 8305); (8319, 8319); (8336, 8348); (8400, 8432); (11388, 11389); (11503, 11505); (11631, 11631); (11647, 11647); (11744, 11775); (11823, 11823); (12293, 12293); (12330, 12333); (12337, 12341); (12347, 12347); (12441, 12446); (12540, 12542); (40981, 40981); (42232, 42237); (42508, 42508); (42607, 42610); (42612, 42621); (42623, 42623); (42652, 42655); (42736, 42737); (42752, 42785); (42864, 42864); (42888, 42890); (42994, 42996); (43000, 43001); (43010, 43010); (43014, 43014); (43019, 43019); (43045, 43046); (43052, 43052); (43204, 43205); (43232, 43249); (43263, 43263); (43302, 43309); (43335, 43345); (43392, 43394); (43443, 43443); (43446, 43449); (43452, 43453); (43471, 43471); (43493, 43494); (43561, 43566); (43569, 43570); (43573, 43574); (43587, 43587); (43596, 43596); (43632, 43632); (43644, 43644); (43696, 43696); (43698, 43700); (43703, 43704); (43710, 43711); (43713, 43713); (43741, 43741); (43756, 43757); (43763, 43764); (43766, 43766); (43867, 43871); (43881, 43883); (44005, 44005); (44008, 44008); (44013, 44013); (64286, 64286); (64434, 64450); (65024, 65039); (65043, 65043); (65056, 65071); (65106, 65106); (65109, 65109); (65279, 65279); (65287, 65287); (65294, 65294); (65306, 65306); (65342, 65342); (65344, 65344); (65392, 65392); (65438, 65439); (65507, 65507); (65529, 65531); (66045, 66045); (66272, 66272); (66422, 66426); (67456, 67461); (67463, 67504); (67506, 67514); (68097, 68099); (68101, 68102); (68108, 68111); (68152, 68154); (68159, 68159); (68325, 68326); (68900, 68903); (69291, 69292); (69446, 69456); (69506, 69509); (69633, 69633); (69688, 69702); (69744, 69744); (69747, 69748); (69759, 69761); (69811, 69814); (69817, 69818); (69821, 69821); (69826, 69826); (69837, 69837); (69888, 69890); (69927, 69931); (69933, 69940); (70003, 70003); (70016, 70017); (70070, 70078); (70089, 70092); (70095, 70095); (70191, 70193); (70196, 70196); (70198, 70199); (70206, 70206); (70367, 70367); (70371, 70378); (70400, 70401); (70459, 70460); (70464, 70464); (70502, 70508); (70512, 70516); (70712, 70719); (70722, 70724); (70726, 70726); (70750, 70750); (70835, 70840); (70842, 70842); (70847, 70848); (70850, 70851); (71090, 71093); (71100, 71101); (71103, 71104); (71132, 71133); (71219, 71226); (71229, 71229); (71231, 71232); (71339, 71339); (71341, 71341); (71344, 71349); (71351, 71351); (71453, 71455); (71458, 71461); (71463, 71467); (71727, 71735); (71737, 71738); (71995, 71996); (71998, 71998); (72003, 72003); (72148, 72151); (72154, 72155); (72160, 72160); (72193, 72202); (72243, 72248); (72251, 72254); (72263, 72263); (72273, 72278); (72281, 72283); (72330, 72342); (72344, 72345); (72752, 72758); (72760, 72765); (72767, 72767); (72850, 72871); (72874, 72880); (72882, 72883); (72885, 72886); (73009, 73014); (73018, 73018); (73020, 73021); (73023, 73029); (73031, 73031); (73104, 73105); (73109, 73109); (73111, 73111); (73459, 73460); (78896, 78904); (92912, 92916); (92976, 92982); (92992, 92995); (94031, 94031); (94095, 94111); (94176, 94177); (94179, 94180); (110576, 110579); (110581, 110587); (110589, 110590); (113821, 113822); (113824, 113827); (118528, 118573); (118576, 118598); (119143, 119145); (119155, 119170); (119173, 119179); (119210, 119213); (119362, 119364); (121344, 121398); (121403, 121452); (121461, 121461); (121476, 121476); (121499, 121503); (121505, 121519); (122880, 122886); (122888, 122904); (122907, 122913); (122915, 122916); (122918, 122922); (123184, 123197); (123566, 123566); (123628, 123631); (125136, 125142); (125252, 125259); (127995, 127999); (917505, 917505); (917536, 917631); (917760, 917999)].

Definition unicode_cased : list (Z * Z) :=
  [(65, 90); (97, 122); (170, 170); (181, 181); (186, 186); (192, 214); (216, 246); (248, 442); (444, 447); (452, 659); (661, 687); (880, 883); (886, 887); (891, 893); (895, 895); (902, 902); (904, 906); (908, 908); (910, 929); (931, 1013); (1015, 1153); (1162, 1327); (1329, 1366); (1376, 1416); (4256, 4293); (4295, 4295); (4301, 4301); (4304, 4346); (4349, 4351); (5024, 5109); (5112, 5117); (7296, 7304); (7312, 7354); (7357, 7359); (7424, 7467); (7531, 7543); (7545, 7578); (7680, 7957); (7960, 7965); (7968, 8005); (8008, 8013); (8016, 8023); (8025, 8025); (8027, 8027); (8029, 8029); (8031, 8061); (8064, 8116); (8118, 8124); (8126, 8126); (8130, 8132); (8134, 8140); (8144, 8147); (8150, 8155); (8160, 8172); (8178, 8180); (8182, 8188); (8450, 8450); (8455, 8455); (8458, 8467); (8469, 8469); (8473, 8477); (8484, 8484); (8486, 8486); (8488, 8488); (8490, 8493); (8495, 8500); (8505, 8505); (8508, 8511); (8517, 8521); (8526, 8526); (8544, 8575); (8579, 8580); (9398, 9449); (11264, 11387); (11390, 11492); (11499, 11502); (11506, 11507); (11520, 11557); (11559, 11559); (11565, 11565); (42560, 42605); (42624, 42651); (42786, 42863); (42865, 42887); (42891, 42894); (42896, 42954); (42960, 42961); (42963, 42963); (42965, 42969); (42997, 42998); (43002, 43002); (43824, 43866); (43872, 43880); (43888, 43967); (64256, 64262); (64275, 64279); (65313, 65338); (65345, 65370); (66560, 66639); (66736, 66771); (66776, 66811); (66928, 66938); (66940, 66954); (66956, 66962); (66964, 66965); (66967, 66977); (66979, 66993); (66995, 67001); (67003, 67004); (68736, 68786); (68800, 68850); (71840, 71903); (93760, 93823); (119808, 119892); (119894, 119964); (119966, 119967); (119970, 119970); (119973, 119974); (119977, 119980); (119982, 119993); (119995, 119995); (119997, 120003); (120005, 120069); (120071, 120074); (120077, 120084); (120086, 120092); (120094, 120121); (120123, 120126); (120128, 120132); (120134, 120134); (120138, 120144); (120146, 120485); (120488, 120512); (120514, 120538); (120540, 120570); (120572, 120596); (120598, 120628); (120630, 120654); (120656, 120686); (120688, 120712); (120714, 120744); (120746, 120770); (120772, 120779); (122624, 122633); (122635, 122654); (125184, 125251); (127280, 127305); (127312, 127337); (127344, 127369)].

Definition in_ranges (c : Z) (rs : list (Z * Z)) : bool :=
  existsb (fun r => (fst r <=? c) && (c <=? snd r)) rs.

(** [ch.isspace()] *)
Definition py_isspace (c : Z) : bool :=
  if c <? 128 then (c =? 32) || ((9 <=? c) && (c <=? 13)) || ((28 <=? c) && (c <=? 31))
  else in_ranges c unicode_space.

(** [unicodedata.decimal(ch, None)] *)
Definition py_decimal (c : Z) : option Z :=
  if c <? 128 then (if (48 <=? c) && (c <=? 57) then Some (c - 48) else None)
  else match find (fun z => (z <=? c) && (c <=? z + 9)) unicode_decimal_zeros with
       | Some z => Some (c - z)
       | None => None
       end.

(** [ch.isdigit()] *)
Definition py_isdigit_char (c : Z) : bool :=
  match py_decimal c with Some _ => true | None => in_ranges c unicode_digit_only end.

(** [s.isdigit()]: non-empty and every character a digit. *)
Definition isdigit (s : pystr) : bool :=
  match s with [] => false | _ => forallb py_isdigit_char s end.

Fixpoint lstrip_by (p : Z -> bool) (s : pystr) : pystr :=
  match s with
  | c :: s' => if p c then lstrip_by p s' else s
  | [] => []
  end.
Definition strip_by (p : Z -> bool) (s : pystr) : pystr := rev (lstrip_by p (rev (lstrip_by p s))).

(** [s.strip()] *)
Definition strip (s : pystr) : pystr := strip_by py_isspace s.

(** *** [s.lower()] *)

(** The lowercase of one character other than the capital sigma. *)
Definition lower_char (c : Z) : list Z :=
  if c <? 128 then (if (65 <=? c) && (c <=? 90) then [c + 32] else [c])
  else if c =? 304 then [105; 775]
  else match find (fun '(lo, hi, step, _) =>
                     (lo <=? c) && (c <=? hi) && (Z.modulo (c - lo) step =? 0)) unicode_lower with
       | Some (_, _, _, d) => [c + d]
       | None => [c]
       end.

Fixpoint first_not_ignorable (l : list Z) : option Z :=
  match l with
  | [] => None
  | c :: l' => if in_ranges c unicode_case_ignorable then first_not_ignorable l' else Some c
  end.

(** The final-sigma context of a capital sigma: a cased letter before it
    and none after it, case-ignorable characters skipped ([before] is
    reversed). *)
Definition final_sigma (before after : list Z) : bool :=
  match first_not_ignorable before with
  | Some c =>
      in_ranges c unicode_cased &&
      match first_not_ignorable after with
      | Some c' => negb (in_ranges c' unicode_cased)
      | None => true
      end
  | None => false
  end.

Fixpoint lower_acc (before : list Z) (s : pystr) : pystr :=
  match s with
  | [] => []
  | c :: s' =>
      ((if c =? 931 then [if final_sigma before s' then 962 else 963] else lower_char c)
       ++ lower_acc (c :: before) s')%list
  end.

Definition lower (s : pystr) : pystr := lower_acc [] s.

(** *** [int(s)] on a [str]

    CPython first rewrites each non-ASCII character: whitespace becomes
    a space, a decimal digit its ASCII digit, anything else a question
    mark.  The ASCII text is then read by [PyLong_FromString]: C
    whitespace (space, \t, \n, \v, \f, \r; not \x1c to \x1f) around it,
    an optional sign, decimal digits with single underscores between
    them, and at most [sys.get_int_max_str_digits()] = 4300 digits. *)
Definition int_char (c : Z) : Z :=
  if c <? 128 then c
  else if py_isspace c then 32
  else match py_decimal c with Some d => 48 + d | None => 63 end.

Definition c_isspace (c : Z) : bool := (c =? 32) || ((9 <=? c) && (c <=? 13)).
Definition is_digit (c : Z) : bool := (48 <=? c) && (c <=? 57).

(** The digits of [s] if it is digits with single underscores between
    them. *)
Fixpoint digits_us (prev_digit : bool) (s : list Z) : option (list Z) :=
  match s with
  | [] => if prev_digit then Some [] else None
  | c :: s' =>
      if is_digit c then option_map (cons c) (digits_us true s')
      else if (c =? 95) && prev_digit then
        match s' with
        | d :: _ => if is_digit d then digits_us false s' else None
        | [] => None
        end
      else None
  end.

(** Decimal value of a string of ASCII digits. *)
Fixpoint dec_value_acc (acc : Z) (s : list Z) : Z :=
  match s with
  | [] => acc
  | c :: s' => dec_value_acc (10 * acc + (c - 48)) s'
  end.
Definition dec_value (s : list Z) : Z := dec_value_acc 0 s.

Definition int_max_str_digits : nat := 4300.

Definition int_of_str (s : pystr) : Z + Exc :=
  let a := strip_by c_isspace (map int_char s) in
  let '(sign, r) := match a with
                    | 45 :: r => (-1, r)
                    | 43 :: r => (1, r)
                    | _ => (1, a)
                    end in
  match digits_us false r with
  | Some ds => if Nat.leb (length ds) int_max_str_digits then inl (sign * dec_value ds)
               else inr ValueError
  | None => inr ValueError
  end.

(** [int(x)] on the values a configuration holds (floats are not modelled). *)
Definition py_int (v : PyVal) : Z + Exc :=
  match v with
  | PInt z => inl z
  | PBool b => inl (if b then 1 else 0)
  | PStr s => int_of_str s
  | _ => inr TypeError
  end.

(** *** [str(x)]

    An [int] of more than 4300 digits cannot be converted ([ValueError]),
    also inside a list or a dictionary; of the representation of a list
    or a dictionary only the opening bracket is kept: the code compares
    [str(x).lower()] with fixed words, which no string starting with a
    bracket equals. *)
Fixpoint str_convertible (v : PyVal) : bool :=
  match v with
  | PInt z => Z.abs z <? 10 ^ Z.of_nat int_max_str_digits
  | PList l => (fix go (l : list PyVal) : bool :=
                  match l with [] => true | x :: l' => str_convertible x && go l' end) l
  | PDict d => (fix go (d : list (string * PyVal)) : bool :=
                  match d with [] => true | (_, x) :: d' => str_convertible x && go d' end) d
  | _ => true
  end.

(** The decimal text of an integer. *)
Definition int_text (z : Z) : string := NilZero.string_of_int (Z.to_int z).

Definition py_str (v : PyVal) : pystr + Exc :=
  if str_convertible v then
    inl match v with
        | PNone => lit "None"
        | PBool true => lit "True"
        | PBool false => lit "False"
        | PInt z => lit (int_text z)
        | PStr s => s
        | PList _ => lit "["
        | PDict _ => lit "{"
        end
  else inr ValueError.

(** [timedelta(minutes=x)]: an integer (or bool) within the range of
    [timedelta.days] (|days| <= 999999999); other values raise. *)
Definition py_timedelta_minutes (v : PyVal) : Z + Exc :=
  let chk z := if (-999999999 <=? z / 1440) && (z / 1440 <=? 999999999)
               then inl z else inr OverflowError in
  match v with
  | PInt z => chk z
  | PBool b => inl (if b then 1 else 0)
  | _ => inr TypeError
  end.

(** ** Platform objects *)

(** A role: its id and its position in the guild's hierarchy. *)
Record Role := mkRole { role_id : Z; position : Z }.

(** A guild member: id and highest role ([member.top_role]). *)
Record Member := mkMember { mem_id : Z; top_role : Role }.

Record Guild := mkGuild {
  guild_id : Z;
  guild_owner : option Member;   (* [guild.owner]: None when not resolvable *)
  owner_id : Z;                  (* [guild.owner_id] *)
  guild_channels : list Z        (* channel ids [guild.get_channel] resolves *)
}.

(** [interaction.user]: a [discord.Member], or a bare user id. *)
Inductive Invoker := IMember (m : Member) | IUser (uid : Z).

Definition invoker_id (u : Invoker) : Z :=
  match u with IMember m => mem_id m | IUser uid => uid end.

Record Channel := mkChannel { channel_id : Z; has_purge : bool }.

Record Interaction := mkInteraction {
  i_guild : option Guild;
  i_user : Invoker;
  i_channel : option Channel
}.

(** discord.py's [Role.__lt__]: the default role (id = guild id) is the
    lowest; otherwise by position, ties broken by the larger id being lower. *)
Definition role_lt (gid : Z) (a b : Role) : bool :=
  if role_id a =? gid then negb (role_id b =? gid)
  else if position a <? position b then true
  else if position a =? position b then role_id a >? role_id b
  else false.

(** [a >= b] is [not (a < b)]. *)
Definition role_ge (gid : Z) (a b : Role) : bool := negb (role_lt gid a b).

(** [member == guild.owner]: members compare by id; [None] equals nothing. *)
Definition is_guild_owner (g : Guild) (m : Member) : bool :=
  match guild_owner g with
  | Some o => mem_id o =? mem_id m
  | None => false
  end.

(** ** Store records (external store interface of the spec, section 6) *)

(** A warning as the store returns it; [w_id], [w_warning_id] and [w__id]
    are the dictionary keys "id", "warning_id" and "_id". *)
Record Warning := mkWarning {
  w_id : option Z;
  w_warning_id : option Z;
  w__id : option Z;
  w_guild : Z;
  w_member : Z;
  w_mod : Z;
  w_reason : string
}.

Record LogEntry := mkLog {
  log_guild : Z;
  log_action : string;
  log_target : Z;
  log_mod : Z;
  log_reason : option string
}.

(** ** Messages, embeds and the reasons passed to the platform *)

Inductive Msg :=
| Txt (s : string)                          (* fixed text *)
| AreYouSureBan (target : Z)
| NoWarnings (target : Z)
| ClearedWarnings (n target : Z)
| AutoActionDone (verb : string) (target threshold : Z)
| RemovedOneWarning (target count : Z)
| MaxPurge (n : Z)
| DeletedMessages (n : Z)
| CmdError (e : Exc).                       (* "❌ Error: {error}" *)

Inductive Embed :=
| ErrorEmbed (m : Msg)                      (* create_error_embed *)
| SuccessEmbed (m : Msg)                    (* create_success_embed *)
| MemberKicked (target moderator : Z) (reason : string)
| MemberBanned (target moderator : Z) (reason : string)
| UserUnbanned (target moderator : Z)
| MemberWarned (target count moderator : Z) (reason : string)
| WarningDM (target : Z) (reason : string) (count : Z)
| WarningsFor (target total : Z) (shown : list Warning)
| MemberTimedOut (target minutes moderator : Z) (reason : string)
| TimeoutRemoved (target moderator : Z)
| FeaturesEmbed.

(** Audit reasons given to the platform:
    [f"{reason} | Kicked by {author} ({author.id})"] and the like. *)
Inductive AuditReason :=
| ByModerator (reason : string) (verb : string) (moderator : Z)
| ReachedWarnings (threshold : Z)
| TimeoutRemovedBy (moderator : Z).

(** ** External calls *)

Inductive Call :=
(* interaction responses *)
| Send (followup : bool) (content : option Msg) (embed : option Embed)
       (ephemeral : bool) (with_view : bool)
| Defer (ephemeral : bool)
| ConfirmWait                               (* [await view.wait()] *)
| OriginalResponse
| EditOriginal (content : option Msg) (embed : option Embed)
(* platform actions *)
| KickCall (target : Z) (reason : AuditReason)
| BanCall (target : Z) (reason : AuditReason)
| TimeoutCall (target : Z) (minutes : option Z) (reason : AuditReason)
| FetchUser (uid : Z)
| UnbanCall (uid : Z)
| ChannelSend (channel : Z) (embed : Embed)
| SendDM (target : Z) (embed : Embed)
| PurgeCall (channel : Z) (limit : Z)
(* store *)
| GetServerSettings (guild : Z)
| LogAction (guild : Z) (action : string) (target moderator : Z) (reason : option string)
| AddWarning (guild member moderator : Z) (reason : string)
| GetWarnings (guild member : Z)
| GetWarningCount (guild member : Z)
| ClearWarnings (guild member : Z)
| DeleteWarning (guild : Z) (wid : Z)
| RemoveWarning (guild member : Z).

Definition is_store_call (c : Call) : bool :=
  match c with
  | GetServerSettings _ | LogAction _ _ _ _ _ | AddWarning _ _ _ _
  | GetWarnings _ _ | GetWarningCount _ _ | ClearWarnings _ _
  | DeleteWarning _ _ | RemoveWarning _ _ => true
  | _ => false
  end.

(** What a call returns. *)
Inductive Ret :=
| RUnit
| RInt (z : Z)
| RConfirm (value : option bool)            (* [view.value] after the wait *)
| RSettings (v : PyVal)
| RWarnings (ws : list Warning).

(** The oracle's answer to a call.  [RaisesLate e]: the caller sees [e]
    although the call took effect, as a store call that
    [asyncio.wait_for] gave up on may still complete. *)
Inductive Outcome := Returns (r : Ret) | Raises (e : Exc) | RaisesLate (e : Exc).

(** ** The store

    The store is outside this repository; the cog only relies on the
    interface listed in section 6 of the spec.  [Store] models that
    interface: warnings newest-first, the action log in write order, the
    server settings per guild, and the two optional deletion capabilities
    [delete_warning] and [remove_warning] that [unwarn] probes with
    [hasattr]. *)
(** Server settings of a guild, as [setup.py] writes them. *)
Record Settings := mkSettings { log_channel : option Z; welcome_channel : option Z }.

(** The dictionary [get_server_settings] returns. *)
Definition settings_dict (s : Settings) : PyVal :=
  let entry k o := match o with Some z => [(k, PInt z)] | None => [] end in
  PDict (entry "log_channel" (log_channel s) ++ entry "welcome_channel" (welcome_channel s))%list.

Record Store := mkStore {
  warnings : list Warning;
  action_log : list LogEntry;
  server_settings : list (Z * Settings);
  next_warning_id : Z;
  has_delete_warning : bool;
  has_remove_warning : bool
}.

Definition of_member (g m : Z) (w : Warning) : bool :=
  (w_guild w =? g) && (w_member w =? m).

Definition member_warnings (st : Store) (g m : Z) : list Warning :=
  filter (of_member g m) (warnings st).

Definition has_ident (g wid : Z) (w : Warning) : bool :=
  (w_guild w =? g) &&
  (existsb (fun o => match o with Some z => z =? wid | None => false end)
     [w_id w; w_warning_id w; w__id w]).

(** Remove the first element satisfying [p]. *)
Fixpoint remove_first {A} (p : A -> bool) (l : list A) : list A :=
  match l with
  | [] => []
  | x :: l' => if p x then l' else x :: remove_first p l'
  end.

Fixpoint lookup_settings (g : Z) (l : list (Z * Settings)) : PyVal :=
  match l with
  | [] => PDict []
  | (g', v) :: l' => if g =? g' then settings_dict v else lookup_settings g l'
  end.

Definition with_warnings (st : Store) (ws : list Warning) : Store :=
  mkStore ws (action_log st) (server_settings st) (next_warning_id st)
    (has_delete_warning st) (has_remove_warning st).

(** One store operation. *)
Definition store_step (c : Call) (st : Store) : (Ret + Exc) * Store :=
  match c with
  | GetServerSettings g => (inl (RSettings (lookup_settings g (server_settings st))), st)
  | LogAction g a t m r =>
      (inl RUnit,
       mkStore (warnings st) (action_log st ++ [mkLog g a t m r])%list (server_settings st)
         (next_warning_id st) (has_delete_warning st) (has_remove_warning st))
  | AddWarning g m md r =>
      (inl RUnit,
       mkStore (mkWarning (Some (next_warning_id st)) None None g m md r :: warnings st)
         (action_log st) (server_settings st) (next_warning_id st + 1)
         (has_delete_warning st) (has_remove_warning st))
  | GetWarnings g m => (inl (RWarnings (member_warnings st g m)), st)
  | GetWarningCount g m => (inl (RInt (Z.of_nat (length (member_warnings st g m)))), st)
  | ClearWarnings g m =>
      (inl (RInt (Z.of_nat (length (member_warnings st g m)))),
       with_warnings st (filter (fun w => negb (of_member g m w)) (warnings st)))
  | DeleteWarning g wid =>
      if has_delete_warning st
      then (inl RUnit, with_warnings st (remove_first (has_ident g wid) (warnings st)))
      else (inr AttributeError, st)
  | RemoveWarning g m =>
      if has_remove_warning st
      then (inl RUnit, with_warnings st (remove_first (of_member g m) (warnings st)))
      else (inr AttributeError, st)
  | _ => (inl RUnit, st)
  end.

(** ** The world and the handler monad *)

Record World := mkWorld {
  ext : Call -> Outcome;         (* the platform's answers; injected store failures *)
  responded : bool;              (* interaction.response.is_done() *)
  trace : list Call;             (* every external call issued, in order *)
  store : Store;
  config : option PyVal          (* self.bot.config; None: no such attribute *)
}.

Inductive Res (A : Type) := Ok (a : A) | Raised (e : Exc).
Arguments Ok {A} a.
Arguments Raised {A} e.

Definition M (A : Type) : Type := World -> Res A * World.

Definition ret {A} (a : A) : M A := fun w => (Ok a, w).
Definition raise {A} (e : Exc) : M A := fun w => (Raised e, w).
Definition bind {A B} (m : M A) (k : A -> M B) : M B :=
  fun w => match m w with
           | (Ok a, w') => k a w'
           | (Raised e, w') => (Raised e, w')
           end.

Notation "x <- c1 ;; c2" := (bind c1 (fun x => c2))
  (at level 61, c1 at next level, right associativity).
Notation "c1 ;; c2" := (bind c1 (fun _ => c2)) (at level 61, right associativity).

(** [try: m except ...]: [h e] is the matching except clause, if any. *)
Definition try_except {A} (m : M A) (h : Exc -> option (M A)) : M A :=
  fun w => match m w with
           | (Raised e, w') => match h e with Some k => k w' | None => (Raised e, w') end
           | r => r
           end.

Definition lift {A} (x : A + Exc) : M A :=
  match x with inl a => ret a | inr e => raise e end.

Definition is_done : M bool := fun w => (Ok (responded w), w).
Definition get_store : M Store := fun w => (Ok (store w), w).
Definition get_config : M (option PyVal) := fun w => (Ok (config w), w).

(** Calls that answer the interaction (initial response or deferral). *)
Definition answers (c : Call) : bool :=
  match c with Send false _ _ _ _ | Defer _ => true | _ => false end.

(** Issue one external call: record it, then take the oracle's answer, or
    the store's for a store call the oracle does not fail; a store call
    that fails late still changes the store. *)
Definition call (c : Call) : M Ret :=
  fun w =>
    let tr := (trace w ++ [c])%list in
    match ext w c with
    | Raises e => (Raised e, mkWorld (ext w) (responded w) tr (store w) (config w))
    | RaisesLate e =>
        let st' := if is_store_call c then snd (store_step c (store w)) else store w in
        (Raised e, mkWorld (ext w) (responded w) tr st' (config w))
    | Returns r =>
        if is_store_call c then
          let (r', st') := store_step c (store w) in
          (match r' with inl x => Ok x | inr e => Raised e end,
           mkWorld (ext w) (responded w) tr st' (config w))
        else (Ok r, mkWorld (ext w) (responded w || answers c) tr (store w) (config w))
    end.

Definition call_ (c : Call) : M unit := call c ;; ret tt.

(** ** Shared helpers of the cog *)

(** [_respond]: initial response if not yet answered, else a followup. *)
Definition respond (content : option Msg) (embed : option Embed)
    (ephemeral : bool) (view : bool) : M unit :=
  d <- is_done ;;
  call_ (Send d content embed ephemeral view).

Definition respond_error (m : string) : M unit :=
  respond None (Some (ErrorEmbed (Txt m))) true false.

(** [_defer]: a no-op once answered; failures are swallowed. *)
Definition defer : M unit :=
  d <- is_done ;;
  if d then ret tt
  else try_except (call_ (Defer true)) (fun _ => Some (ret tt)).

(** [guild.get_channel(channel_id)]: a dictionary lookup by id. *)
Definition get_channel (g : Guild) (v : PyVal) : option Z + Exc :=
  let find z := if existsb (Z.eqb z) (guild_channels g) then Some z else None in
  match v with
  | PInt z => inl (find z)
  | PBool b => inl (find (if b then 1 else 0))
  | PList _ | PDict _ => inr TypeError       (* unhashable key *)
  | _ => inl None
  end.

(** [_post_modlog]. *)
Definition post_modlog (g : Guild) (embed : Embed) : M unit :=
  r <- call (GetServerSettings (guild_id g)) ;;
  let settings := match r with RSettings v => v | _ => PNone end in
  channel_id <- lift (py_get settings "log_channel" PNone) ;;
  if negb (truthy channel_id) then ret tt
  else
    ch <- lift (get_channel g channel_id) ;;
    match ch with
    | Some c => try_except (call_ (ChannelSend c embed)) (fun _ => Some (ret tt))
    | None => ret tt
    end.

Definition guild_only_msg : Msg := Txt "❌ This command can only be used in a server.".

(** [if not interaction.guild or not isinstance(interaction.user, discord.Member)]. *)
Definition with_guild_member (i : Interaction) (k : Guild -> Member -> M unit) : M unit :=
  match i_guild i, i_user i with
  | Some g, IMember author => k g author
  | _, _ => respond (Some guild_only_msg) None true false
  end.

(** [if not interaction.guild]. *)
Definition with_guild (i : Interaction) (k : Guild -> M unit) : M unit :=
  match i_guild i with
  | Some g => k g
  | None => respond (Some guild_only_msg) None true false
  end.

(** [member.top_role >= author.top_role and author.id != interaction.guild.owner_id]. *)
Definition outranked (g : Guild) (author member : Member) : bool :=
  role_ge (guild_id g) (top_role member) (top_role author)
  && negb (mem_id author =? owner_id g).

(** The two except clauses [discord.Forbidden] / [discord.HTTPException]. *)
Definition forbidden_or_http (on_forbidden on_http : M unit) (e : Exc) : option (M unit) :=
  if is_forbidden e then Some on_forbidden
  else if is_http e then Some on_http
  else None.

(** ** Commands *)

Definition kick (i : Interaction) (member : Member) (reason : string) : M unit :=
  with_guild_member i (fun g author =>
    if is_guild_owner g member then respond_error "You cannot kick the server owner."
    else if outranked g author member
    then respond_error "You cannot kick someone with a higher or equal role."
    else
      defer ;;
      try_except
        (call_ (KickCall (mem_id member) (ByModerator reason "Kicked" (mem_id author))) ;;
         call_ (LogAction (guild_id g) "kick" (mem_id member) (mem_id author) (Some reason)) ;;
         let embed := MemberKicked (mem_id member) (mem_id author) reason in
         respond None (Some embed) false false ;;
         post_modlog g embed)
        (forbidden_or_http
           (respond_error "I don't have permission to kick this member.")
           (respond_error "Kick failed due to a Discord API error."))).

Definition ban (i : Interaction) (member : Member) (reason : string) : M unit :=
  with_guild_member i (fun g author =>
    if is_guild_owner g member then respond_error "You cannot ban the server owner."
    else if outranked g author member
    then respond_error "You cannot ban someone with a higher or equal role."
    else
      respond (Some (AreYouSureBan (mem_id member))) None true true ;;
      r <- call ConfirmWait ;;
      let value := match r with RConfirm v => v | _ => None end in
      msg <- try_except (call_ OriginalResponse ;; ret true) (fun _ => Some (ret false)) ;;
      if negb (match value with Some true => true | _ => false end) then
        (if msg then call_ (EditOriginal (Some (Txt "❌ Ban cancelled.")) None) else ret tt)
      else
        let err m := if msg then call_ (EditOriginal (Some (Txt m)) None)
                     else respond None (Some (ErrorEmbed (Txt m))) true false in
        try_except
          (call_ (BanCall (mem_id member) (ByModerator reason "Banned" (mem_id author))) ;;
           call_ (LogAction (guild_id g) "ban" (mem_id member) (mem_id author) (Some reason)) ;;
           let embed := MemberBanned (mem_id member) (mem_id author) reason in
           (if msg then call_ (EditOriginal None (Some embed))
            else respond None (Some embed) true false) ;;
           post_modlog g embed)
          (forbidden_or_http
             (err "❌ I don't have permission to ban this member.")
             (err "❌ Ban failed due to a Discord API error."))).

Fixpoint prefixb (pat s : pystr) : bool :=
  match pat, s with
  | [], _ => true
  | p :: pat', c :: s' => (p =? c) && prefixb pat' s'
  | _ :: _, [] => false
  end.

(** [s.replace(pat, "")] for a non-empty [pat]: left to right, the
    occurrences that do not overlap a previous one are removed. *)
Fixpoint remove_all_fuel (fuel : nat) (pat s : pystr) : pystr :=
  match fuel with
  | O => s
  | S f =>
      match s with
      | [] => []
      | c :: s' =>
          if prefixb pat s then remove_all_fuel f pat (skipn (length pat) s)
          else c :: remove_all_fuel f pat s'
      end
  end.
Definition py_remove (pat s : pystr) : pystr := remove_all_fuel (length s) pat s.

(** [user_id.strip().replace("<@", "").replace(">", "").replace("!", "")] *)
Definition clean_user_id (user_id : pystr) : pystr :=
  py_remove (lit "!") (py_remove (lit ">") (py_remove (lit "<@") (strip user_id))).

(** [uid = int(cleaned)] comes before the [try]: a digit that is not a
    decimal digit (as a superscript) passes [isdigit] and then makes [int]
    raise [ValueError]. *)
Definition unban (i : Interaction) (user_id : pystr) : M unit :=
  with_guild_member i (fun g author =>
    let cleaned := clean_user_id user_id in
    if negb (isdigit cleaned) then respond_error "Please provide a valid user ID."
    else
      defer ;;
      uid <- lift (int_of_str cleaned) ;;
      try_except
        (call_ (FetchUser uid) ;;
         call_ (UnbanCall uid) ;;
         call_ (LogAction (guild_id g) "unban" uid (mem_id author) None) ;;
         let embed := UserUnbanned uid (mem_id author) in
         respond None (Some embed) false false ;;
         post_modlog g embed)
        (fun e => if is_notfound e then Some (respond_error "User not found or not banned.")
                  else forbidden_or_http
                         (respond_error "I don't have permission to unban users.")
                         (respond_error "Unban failed due to a Discord API error.") e)).

(** [(getattr(self.bot, "config", {}) or {}).get("moderation", {})], then
    [if not isinstance(mod_cfg, dict): mod_cfg = {}]. *)
Definition moderation_config (cfg : option PyVal) : PyVal + Exc :=
  let base := match cfg with Some v => if truthy v then v else PDict [] | None => PDict [] end in
  match py_get base "moderation" (PDict []) with
  | inl (PDict d) => inl (PDict d)
  | inl _ => inl (PDict [])
  | inr e => inr e
  end.

(** [try: int(mod_cfg.get(key, default)) except Exception: default] *)
Definition int_or (mod_cfg : PyVal) (key : string) (default : Z) : Z :=
  match py_get mod_cfg key (PInt default) with
  | inl v => match py_int v with inl z => z | inr _ => default end
  | inr _ => default
  end.

(** [str(mod_cfg.get("warn_threshold_action", "none")).lower()] *)
Definition threshold_action (mod_cfg : PyVal) : pystr + Exc :=
  match py_get mod_cfg "warn_threshold_action" (PStr (lit "none")) with
  | inl v => match py_str v with inl s => inl (lower s) | inr e => inr e end
  | inr e => inr e
  end.

(** [self.bot.config] *)
Definition bot_config : M PyVal :=
  c <- get_config ;;
  match c with Some v => ret v | None => raise AttributeError end.

(** The threshold auto action at the end of [warn]. *)
Definition warn_auto_action (member : Member) (warning_count : Z) : M unit :=
  cfg <- get_config ;;
  mod_cfg <- lift (moderation_config cfg) ;;
  let warn_threshold := int_or mod_cfg "warn_threshold" 0 in
  auto_action <- lift (threshold_action mod_cfg) ;;
  if (warn_threshold <=? 0) || str_eqb auto_action (lit "none") then ret tt
  else if (warning_count >=? warn_threshold) && negb (str_eqb auto_action (lit "none")) then
    let tid := mem_id member in
    let no_perm m := call_ (Send true None (Some (ErrorEmbed (Txt m))) true false) in
    if str_eqb auto_action (lit "timeout") then
      c <- bot_config ;;
      mc <- lift (py_index c "moderation") ;;
      duration <- lift (py_index mc "warn_threshold_timeout_duration") ;;
      try_except
        (minutes <- lift (py_timedelta_minutes duration) ;;
         call_ (TimeoutCall tid (Some minutes) (ReachedWarnings warn_threshold)) ;;
         call_ (Send true (Some (AutoActionDone "timed out" tid warn_threshold)) None false false))
        (fun e => if is_forbidden e
                  then Some (no_perm "I don't have permission to timeout this member.")
                  else None)
    else if str_eqb auto_action (lit "kick") then
      try_except
        (call_ (KickCall tid (ReachedWarnings warn_threshold)) ;;
         call_ (Send true (Some (AutoActionDone "kicked" tid warn_threshold)) None false false))
        (fun e => if is_forbidden e
                  then Some (no_perm "I don't have permission to kick this member.")
                  else None)
    else if str_eqb auto_action (lit "ban") then
      try_except
        (call_ (BanCall tid (ReachedWarnings warn_threshold)) ;;
         call_ (Send true (Some (AutoActionDone "banned" tid warn_threshold)) None false false))
        (fun e => if is_forbidden e
                  then Some (no_perm "I don't have permission to ban this member.")
                  else None)
    else ret tt
  else ret tt.

Definition warn (i : Interaction) (member : Member) (reason : string) : M unit :=
  with_guild_member i (fun g author =>
    if outranked g author member
    then respond_error "You cannot warn someone with a higher or equal role."
    else
      defer ;;
      call_ (AddWarning (guild_id g) (mem_id member) (mem_id author) reason) ;;
      call_ (LogAction (guild_id g) "warn" (mem_id member) (mem_id author) (Some reason)) ;;
      r <- call (GetWarningCount (guild_id g) (mem_id member)) ;;
      let warning_count := match r with RInt n => n | _ => 0 end in
      let embed := MemberWarned (mem_id member) warning_count (mem_id author) reason in
      respond None (Some embed) false false ;;
      post_modlog g embed ;;
      try_except (call_ (SendDM (mem_id member) (WarningDM (mem_id member) reason warning_count)))
                 (fun _ => Some (ret tt)) ;;
      warn_auto_action member warning_count).

Definition warnings_of (r : Ret) : list Warning :=
  match r with RWarnings ws => ws | _ => [] end.

(** [warnings]: the store read runs under [_db_call] (a 10 s
    [asyncio.wait_for]); its expiry is the [TimeoutError] outcome. *)
Definition warnings_cmd (i : Interaction) (member : Member) : M unit :=
  with_guild i (fun g =>
    defer ;;
    r <- try_except (x <- call (GetWarnings (guild_id g) (mem_id member)) ;; ret (Some x))
           (fun e => if is_timeout e
                     then Some (respond_error "DB timed out while fetching warnings. Try again." ;;
                                ret None)
                     else None) ;;
    match r with
    | None => ret tt
    | Some x =>
        let ws := warnings_of x in
        match ws with
        | [] => respond (Some (NoWarnings (mem_id member))) None true false
        | _ => respond None (Some (WarningsFor (mem_id member) (Z.of_nat (length ws))
                                               (firstn 10 ws))) true false
        end
    end).

Definition clearwarnings (i : Interaction) (member : Member) : M unit :=
  with_guild i (fun g =>
    defer ;;
    r <- try_except (x <- call (ClearWarnings (guild_id g) (mem_id member)) ;; ret (Some x))
           (fun e => if is_timeout e
                     then Some (respond_error "DB timed out while clearing warnings. Try again." ;;
                                ret None)
                     else None) ;;
    match r with
    | None => ret tt
    | Some x =>
        let cleared := match x with RInt n => n | _ => 0 end in
        respond (Some (ClearedWarnings cleared (mem_id member))) None true false
    end).

Definition timeout (i : Interaction) (member : Member) (duration : Z) (reason : string) : M unit :=
  with_guild_member i (fun g author =>
    if outranked g author member
    then respond_error "You cannot timeout someone with a higher or equal role."
    else
      defer ;;
      try_except
        (minutes <- lift (py_timedelta_minutes (PInt duration)) ;;
         call_ (TimeoutCall (mem_id member) (Some minutes)
                  (ByModerator reason "Timed out" (mem_id author))) ;;
         call_ (LogAction (guild_id g) "timeout" (mem_id member) (mem_id author) (Some reason)) ;;
         let embed := MemberTimedOut (mem_id member) duration (mem_id author) reason in
         respond None (Some embed) false false ;;
         post_modlog g embed)
        (forbidden_or_http
           (respond_error "I don't have permission to timeout this member.")
           (respond_error "Timeout failed due to a Discord API error."))).

Definition untimeout (i : Interaction) (member : Member) : M unit :=
  with_guild_member i (fun g author =>
    defer ;;
    try_except
      (call_ (TimeoutCall (mem_id member) None (TimeoutRemovedBy (mem_id author))) ;;
       call_ (LogAction (guild_id g) "untimeout" (mem_id member) (mem_id author) None) ;;
       let embed := TimeoutRemoved (mem_id member) (mem_id author) in
       respond None (Some embed) false false ;;
       post_modlog g embed)
      (forbidden_or_http
         (respond_error "I don't have permission to remove timeout.")
         (respond_error "Untimeout failed due to a Discord API error."))).

(** [mute] and [unmute] run [await self.timeout(...)] and
    [await self.untimeout(...)].  In the cog these attributes are the
    [app_commands.Command] objects the decorators made of [timeout] and
    [untimeout], and such an object is not callable: the call raises
    [TypeError] before [timeout]'s or [untimeout]'s body runs (the
    arguments, [int(duration)] among them, are evaluated first and cannot
    fail). *)
Definition mute (i : Interaction) (member : Member) (duration : Z) (reason : string) : M unit :=
  raise NotCallable.

Definition unmute (i : Interaction) (member : Member) : M unit := raise NotCallable.

(** Python's [a or b or c] on the optional identifiers of a warning. *)
Definition py_or (a b : option Z) : option Z :=
  match a with Some z => if z =? 0 then b else a | None => b end.

Definition unwarn (i : Interaction) (member : Member) : M unit :=
  with_guild i (fun g =>
    defer ;;
    r <- call (GetWarnings (guild_id g) (mem_id member)) ;;
    match warnings_of r with
    | [] => respond_error "That member has no warnings."
    | latest :: _ =>
        let wid := py_or (py_or (w_id latest) (w_warning_id latest)) (w__id latest) in
        db <- get_store ;;
        let removal :=
          match wid with
          | Some z => if has_delete_warning db
                      then Some (call_ (DeleteWarning (guild_id g) z)) else None
          | None => None
          end in
        let removal :=
          match removal with
          | Some c => Some c
          | None => if has_remove_warning db
                    then Some (call_ (RemoveWarning (guild_id g) (mem_id member))) else None
          end in
        match removal with
        | None => respond_error "Unwarn is not supported by your DB backend. Use /clearwarnings instead."
        | Some remove =>
            remove ;;
            r' <- call (GetWarningCount (guild_id g) (mem_id member)) ;;
            let new_count := match r' with RInt n => n | _ => 0 end in
            call_ (LogAction (guild_id g) "unwarn" (mem_id member) (invoker_id (i_user i))
                     (Some "Removed latest warning")) ;;
            respond None (Some (SuccessEmbed (RemovedOneWarning (mem_id member) new_count))) true false
        end
    end).

Definition features (i : Interaction) : M unit :=
  respond None (Some FeaturesEmbed) true false.

Definition purge (i : Interaction) (amount : Z) : M unit :=
  with_guild i (fun g =>
    cfg <- get_config ;;
    mod_cfg <- lift (moderation_config cfg) ;;
    let max_amount := int_or mod_cfg "max_purge_amount" 100 in
    if amount >? max_amount
    then respond None (Some (ErrorEmbed (MaxPurge max_amount))) true false
    else
      call_ (Defer true) ;;
      let fail m := call_ (Send true None (Some (ErrorEmbed (Txt m))) true false) in
      match i_channel i with
      | Some ch =>
          if has_purge ch then
            try_except
              (r <- call (PurgeCall (channel_id ch) amount) ;;
               let deleted := match r with RInt n => n | _ => 0 end in
               call_ (Send true None (Some (SuccessEmbed (DeletedMessages deleted))) true false) ;;
               let uid := invoker_id (i_user i) in
               call_ (LogAction (guild_id g) "purge" uid uid
                        (Some ("Purged " ++ int_text deleted ++ " messages"))))
              (forbidden_or_http
                 (fail "I don't have permission to delete messages here.")
                 (fail "Failed to delete messages. Messages might be too old."))
          else fail "This command can only be used in a text-based channel."
      | None => fail "This command can only be used in a text-based channel."
      end).

(** ** Dispatch and the cog's error handler *)

Inductive Command :=
| CKick (m : Member) (reason : string)
| CBan (m : Member) (reason : string)
| CUnban (user_id : pystr)
| CWarn (m : Member) (reason : string)
| CWarnings (m : Member)
| CClearWarnings (m : Member)
| CTimeout (m : Member) (duration : Z) (reason : string)
| CUntimeout (m : Member)
| CMute (m : Member) (duration : Z) (reason : string)
| CUnmute (m : Member)
| CUnwarn (m : Member)
| CFeatures
| CPurge (amount : Z).

Definition handler (i : Interaction) (c : Command) : M unit :=
  match c with
  | CKick m r => kick i m r
  | CBan m r => ban i m r
  | CUnban s => unban i s
  | CWarn m r => warn i m r
  | CWarnings m => warnings_cmd i m
  | CClearWarnings m => clearwarnings i m
  | CTimeout m d r => timeout i m d r
  | CUntimeout m => untimeout i m
  | CMute m d r => mute i m d r
  | CUnmute m => unmute i m
  | CUnwarn m => unwarn i m
  | CFeatures => features i
  | CPurge n => purge i n
  end.

(** [on_app_command_error]: an exception escaping a handler is answered
    with ["❌ Error: {error}"]. *)
Definition dispatch (i : Interaction) (c : Command) : M unit :=
  try_except (handler i c)
    (fun e => Some (respond (Some (CmdError e)) None true false)).

(** Running a handler from a fresh interaction. *)
Definition start (ext : Call -> Outcome) (st : Store) (cfg : option PyVal) : World :=
  mkWorld ext false [] st cfg.

(** The log channel a guild's stored settings hold, as
    [get_server_settings(guild_id).get("log_channel")] reads it. *)
Fixpoint stored_log_channel (g : Z) (l : list (Z * Settings)) : option Z :=
  match l with
  | [] => None
  | (g', s) :: l' => if g =? g' then log_channel s else stored_log_channel g l'
  end.

(** ** Loading the cog: [cog_load]'s command sync *)

(** A [self.bot.tree.sync(...)] request: global, or for one guild. *)
Inductive SyncTarget := SyncGlobal | SyncGuild (gid : Z).

(** [for gid in guild_ids: await self.bot.tree.sync(guild=discord.Object(id=int(gid)))].
    [sync t] is whether the request for [t] returns (false: it raises).
    The result lists the requests issued, in order: the first exception,
    of [int(gid)] or of a request, leaves the loop. *)
Fixpoint sync_guilds (sync : SyncTarget -> bool) (gids : list PyVal) : list SyncTarget :=
  match gids with
  | [] => []
  | gid :: rest =>
      match py_int gid with
      | inr _ => []
      | inl z => SyncGuild z :: (if sync (SyncGuild z) then sync_guilds sync rest else [])
      end
  end.

(** [cog_load]: the sync requests it issues; every exception of the [try]
    is swallowed, so loading the cog never fails. *)
Definition cog_load (cfg : option PyVal) (sync : SyncTarget -> bool) : list SyncTarget :=
  let base := match cfg with Some v => if truthy v then v else PDict [] | None => PDict [] end in
  let discord_cfg :=
    match base with
    | PDict d => match assoc "discord" d with Some v => v | None => PDict [] end
    | _ => PDict []
    end in
  match discord_cfg with
  | PDict dd =>
      if negb (match assoc "sync_app_commands" dd with Some v => truthy v | None => false end)
      then []
      else
        match assoc "sync_guild_ids" dd with
        | Some (PList ((_ :: _) as gids)) => sync_guilds sync gids
        | _ => [SyncGlobal]
        end
  | _ => []
  end.

(** ** The identifier cleaning of [unban], in the words of the spec

    Strip surrounding whitespace, then delete every occurrence of "<@", of
    ">" and of "!"; accept a non-empty all-digit result.  Written by
    structural recursion, to be compared with [clean_user_id]. *)
Fixpoint delete_mention (s : pystr) : pystr :=
  match s with
  | [] => []
  | c :: r =>
      if c =? 60 then                                  (* < *)
        match r with
        | d :: r' => if d =? 64 then delete_mention r' else c :: delete_mention r   (* @ *)
        | [] => [c]
        end
      else c :: delete_mention r
  end.

Fixpoint delete_char (d : Z) (s : pystr) : pystr :=
  match s with
  | [] => []
  | c :: r => if c =? d then delete_char d r else c :: delete_char d r
  end.

(** ! is 33, > is 62. *)
Definition spec_clean_user_id (s : pystr) : pystr :=
  delete_char 33 (delete_char 62 (delete_mention (strip s))).

(** Every character a digit in Python's sense ([str.isdigit]). *)
Definition all_digits (s : pystr) : bool := forallb py_isdigit_char s.

(** ** Kinds of calls the claims speak about *)

(** External moderation actions. *)
Definition is_mod_action (c : Call) : bool :=
  match c with
  | KickCall _ _ | BanCall _ _ | TimeoutCall _ _ _ | UnbanCall _ | PurgeCall _ _ => true
  | _ => false
  end.

(** Store writes. *)
Definition is_store_write (c : Call) : bool :=
  match c with
  | LogAction _ _ _ _ _ | AddWarning _ _ _ _ | ClearWarnings _ _
  | DeleteWarning _ _ | RemoveWarning _ _ => true
  | _ => false
  end.

Definition is_ban_call (c : Call) : bool :=
  match c with BanCall _ _ => true | _ => false end.
Definition is_log_call (c : Call) : bool :=
  match c with LogAction _ _ _ _ _ => true | _ => false end.

(** Every platform and store call returns normally. *)
Definition all_succeed (e : Call -> Outcome) : Prop := forall c, exists r, e c = Returns r.

(** Warning count of a member, as [get_warning_count] computes it. *)
Definition warning_count (st : Store) (g m : Z) : nat := length (member_warnings st g m).

(** ** Example data and claim vocabulary *)

(** Calls that are neither a ban nor an action-log write. *)
Definition no_ban_no_log (c : Call) : Prop := is_ban_call c = false /\ is_log_call c = false.

(** The result of a handler answering with a single response and nothing else. *)
Definition only_response (m : M unit) (w : World) (content : option Msg) (embed : option Embed) : Prop :=
  trace (snd (m w)) = (trace w ++ [Send (responded w) content embed true false])%list /\
  store (snd (m w)) = store w.

(** A concrete guild for the witnesses: guild 100, owner member 1. *)
Definition ex_owner : Member := mkMember 1 (mkRole 11 3).
Definition ex_guild : Guild := mkGuild 100 (Some ex_owner) 1 [500].
Definition ex_store : Store := mkStore [] [] [(100, mkSettings (Some 500) None)] 1 true true.
Definition ex_ok : Call -> Outcome :=
  fun c => match c with ConfirmWait => Returns (RConfirm (Some true)) | _ => Returns RUnit end.
Definition ex_world : World := start ex_ok ex_store None.

(** [max_purge_amount] written as a space and the Arabic-Indic digits
    five and zero (U+0665 U+0660): Python's [int] reads 50. *)
Definition ex_mod_purge_50 : PyVal := PDict [("max_purge_amount", PStr [32; 1637; 1632])].
Definition ex_cfg_purge_50 : PyVal := PDict [("moderation", ex_mod_purge_50)].

Definition ex_cfg_no_duration : PyVal :=
  PDict [("moderation", PDict [("warn_threshold", PInt 3);
                               ("warn_threshold_action", PStr (lit "timeout"))])].

(** A store where member 3 already has two warnings in guild 100. *)
Definition ex_store_two : Store :=
  mkStore [mkWarning (Some 2) None None 100 3 2 "spam"; mkWarning (Some 1) None None 100 3 2 "spam"]
    [] [(100, mkSettings (Some 500) None)] 3 true true.

Definition ex_settings_down : Call -> Outcome :=
  fun c => match c with
           | GetServerSettings _ => Raises (OtherError "store unavailable")
           | _ => Returns RUnit
           end.

Definition ex_cfg_kick_at_1 : PyVal :=
  PDict [("moderation", PDict [("warn_threshold", PInt 1);
                               ("warn_threshold_action", PStr (lit "kick"))])].

Definition ex_cfg_timeout_60 : PyVal :=
  PDict [("moderation", PDict [("warn_threshold", PInt 3); ("warn_threshold_action", PStr (lit "timeout"));
                               ("warn_threshold_timeout_duration", PInt 60)])].

Definition ex_ban_forbidden : Call -> Outcome :=
  fun c => match c with
           | ConfirmWait => Returns (RConfirm (Some true))
           | BanCall _ _ => Raises Forbidden
           | _ => Returns RUnit
           end.

Definition ex_store_coarse : Store :=
  mkStore [mkWarning (Some 7) None None 100 3 2 "spam"] [] [(100, mkSettings (Some 500) None)]
    8 false true.




(** Example data of the further properties: a moderator (member 2) whose
    highest role is above the target's (member 3) in [ex_guild], invoking
    from text channel 500. *)
Definition ex_mod : Member := mkMember 2 (mkRole 12 5).
Definition ex_target : Member := mkMember 3 (mkRole 13 1).
Definition ex_inter : Interaction :=
  mkInteraction (Some ex_guild) (IMember ex_mod) (Some (mkChannel 500 true)).

Definition ex_purge_forbidden : Call -> Outcome :=
  fun c => match c with PurgeCall _ _ => Raises Forbidden | _ => Returns RUnit end.
Definition ex_timeout_forbidden : Call -> Outcome :=
  fun c => match c with TimeoutCall _ _ _ => Raises Forbidden | _ => Returns RUnit end.
(** [clear_warnings] completes, but only after [_db_call] gave up. *)
Definition ex_clear_timeout_late : Call -> Outcome :=
  fun c => match c with ClearWarnings _ _ => RaisesLate TimeoutError | _ => Returns RUnit end.
Definition ex_fetch_not_found : Call -> Outcome :=
  fun c => match c with FetchUser _ => Raises NotFound | _ => Returns RUnit end.

(** A store whose only warning has "id" 0 and "warning_id" 5. *)
Definition ex_store_zero_id : Store :=
  mkStore [mkWarning (Some 0) (Some 5) None 100 3 2 "spam"] [] [(100, mkSettings (Some 500) None)]
    8 true true.

Definition ex_cfg_kick_mixed_case : PyVal :=
  PDict [("moderation", PDict [("warn_threshold", PInt 1);
                               ("warn_threshold_action", PStr (lit "Kick"))])].

(** A "discord" section asking for a sync of guilds 1 and " 2 ". *)
Definition ex_sync_discord : list (string * PyVal) :=
  [("sync_app_commands", PBool true); ("sync_guild_ids", PList [PInt 1; PStr (lit " 2 ")])].

(** Calls that are neither a moderation action nor an action-log write. *)
Definition no_act_no_log (c : Call) : Prop := is_mod_action c = false /\ is_log_call c = false.

(** ** Footprints: which calls a computation may issue *)

Definition footprint {A} (P : Call -> Prop) (m : M A) : Prop :=
  forall w,
    ext (snd (m w)) = ext w /\ config (snd (m w)) = config w /\
    exists l, trace (snd (m w)) = (trace w ++ l)%list /\ Forall P l /\
      (Forall (fun c => is_store_call c = false) l -> store (snd (m w)) = store w).

Section Footprint.
Variable P : Call -> Prop.

Lemma fp_ret {A} (a : A) : footprint P (ret a).
Proof. intro w; cbn; repeat split; auto; exists []; rewrite app_nil_r; auto. Qed.

Lemma fp_raise {A} (e : Exc) : footprint P (@raise A e).
Proof. intro w; cbn; repeat split; auto; exists []; rewrite app_nil_r; auto. Qed.

Lemma fp_lift {A} (x : A + Exc) : footprint P (lift x).
Proof. destruct x; [apply fp_ret | apply fp_raise]. Qed.

Lemma fp_is_done : footprint P is_done.
Proof. intro w; cbn; repeat split; auto; exists []; rewrite app_nil_r; auto. Qed.

Lemma fp_get_store : footprint P get_store.
Proof. intro w; cbn; repeat split; auto; exists []; rewrite app_nil_r; auto. Qed.

Lemma fp_get_config : footprint P get_config.
Proof. intro w; cbn; repeat split; auto; exists []; rewrite app_nil_r; auto. Qed.

Lemma fp_call (c : Call) : P c -> footprint P (call c).
Proof.
  intros Hc w; unfold call.
  destruct (ext w c) as [r|e|e] eqn:E.
  - destruct (is_store_call c) eqn:S.
    + destruct (store_step c (store w)) as [r' st'].
      cbn; repeat split; auto. exists [c]; repeat split; auto.
      intros HF; inversion HF; congruence.
    + cbn; repeat split; auto. exists [c]; repeat split; auto.
  - cbn; repeat split; auto. exists [c]; repeat split; auto.
  - cbn; repeat split; auto. exists [c]; repeat split; auto.
    intros HF; inversion HF; subst. destruct (is_store_call c); congruence.
Qed.

Lemma fp_bind {A B} (m : M A) (k : A -> M B) :
  footprint P m -> (forall a, footprint P (k a)) -> footprint P (bind m k).
Proof.
  intros Hm Hk w; unfold bind.
  destruct (Hm w) as (He1 & Hc1 & l1 & Ht1 & Hf1 & Hs1).
  destruct (m w) as [[a|e] w1] eqn:E; cbn in *.
  - destruct (Hk a w1) as (He2 & Hc2 & l2 & Ht2 & Hf2 & Hs2).
    repeat split; try congruence.
    exists (l1 ++ l2)%list; repeat split.
    + rewrite Ht2, Ht1, app_assoc; reflexivity.
    + apply Forall_app; auto.
    + intros HF; apply Forall_app in HF as [F1 F2]; rewrite Hs2, Hs1; auto.
  - repeat split; auto. exists l1; auto.
Qed.

Lemma fp_try {A} (m : M A) (h : Exc -> option (M A)) :
  footprint P m -> (forall e k, h e = Some k -> footprint P k) ->
  footprint P (try_except m h).
Proof.
  intros Hm Hh w; unfold try_except.
  destruct (Hm w) as (He1 & Hc1 & l1 & Ht1 & Hf1 & Hs1).
  destruct (m w) as [[a|e] w1] eqn:E; cbn in *.
  - repeat split; auto. exists l1; auto.
  - destruct (h e) as [k|] eqn:Hk.
    + destruct (Hh e k Hk w1) as (He2 & Hc2 & l2 & Ht2 & Hf2 & Hs2).
      repeat split; try congruence.
      exists (l1 ++ l2)%list; repeat split.
      * rewrite Ht2, Ht1, app_assoc; reflexivity.
      * apply Forall_app; auto.
      * intros HF; apply Forall_app in HF as [F1 F2]; rewrite Hs2, Hs1; auto.
    + cbn; repeat split; auto. exists l1; auto.
Qed.
End Footprint.

Lemma fp_mono {A} (P Q : Call -> Prop) (m : M A) :
  (forall c, P c -> Q c) -> footprint P m -> footprint Q m.
Proof.
  intros HPQ Hm w. destruct (Hm w) as (He & Hc & l & Ht & Hf & Hs).
  repeat split; auto. exists l; repeat split; auto.
  eapply Forall_impl; eauto.
Qed.

Create HintDb footprint.
#[export] Hint Resolve fp_ret fp_raise fp_lift fp_is_done fp_get_store fp_get_config : footprint.

(** Decompose a computation into primitive steps; [fp_step] leaves the
    obligations about single calls to the caller. *)
Ltac fp_step :=
  match goal with
  | |- footprint _ (bind _ _) => apply fp_bind; [ | intros ? ]
  | |- footprint _ (try_except _ _) =>
      apply fp_try; [ | let e := fresh "e" in let k := fresh "k" in let Hk := fresh "Hk" in
                        intros e k Hk ]
  | H : (if ?b then _ else _) = Some _ |- _ => destruct b; try discriminate
  | H : match ?x with _ => _ end = Some _ |- _ => destruct x; try discriminate
  | H : Some _ = Some _ |- _ => injection H as <-
  | |- footprint _ (if ?b then _ else _) => destruct b
  | |- footprint _ (match ?x with _ => _ end) => destruct x
  | |- footprint _ (call _) => apply fp_call
  | |- footprint _ (call_ _) => unfold call_
  | |- footprint _ _ => solve [eauto with footprint]
  end.
Ltac fp_solve := repeat (fp_step; cbn beta iota).

(** ** Footprints of the shared helpers *)

Lemma fp_respond (P : Call -> Prop) content embed eph view :
  (forall d, P (Send d content embed eph view)) -> footprint P (respond content embed eph view).
Proof. intros H; unfold respond; fp_solve; auto. Qed.

Lemma fp_respond_error (P : Call -> Prop) m :
  (forall d, P (Send d None (Some (ErrorEmbed (Txt m))) true false)) ->
  footprint P (respond_error m).
Proof. intros H; unfold respond_error; apply fp_respond; auto. Qed.

Lemma fp_defer (P : Call -> Prop) : P (Defer true) -> footprint P defer.
Proof. intros H; unfold defer; fp_solve; auto. Qed.

Lemma fp_post_modlog (P : Call -> Prop) g embed :
  P (GetServerSettings (guild_id g)) -> (forall ch, P (ChannelSend ch embed)) ->
  footprint P (post_modlog g embed).
Proof. intros H1 H2; unfold post_modlog; fp_solve; auto. Qed.

Lemma fp_respond_nbl content embed eph view :
  footprint no_ban_no_log (respond content embed eph view).
Proof. apply fp_respond; split; reflexivity. Qed.

Lemma fp_post_modlog_nbl g embed : footprint no_ban_no_log (post_modlog g embed).
Proof. apply fp_post_modlog; split; reflexivity. Qed.

#[export] Hint Resolve fp_respond_nbl fp_post_modlog_nbl : footprint.

(** ** Running single steps *)

Lemma call_trace c w : trace (snd (call c w)) = (trace w ++ [c])%list.
Proof.
  unfold call; destruct (ext w c); [destruct (is_store_call c) | | ]; cbn; auto.
  destruct (store_step c (store w)); reflexivity.
Qed.

Lemma call_store c w : is_store_call c = false -> store (snd (call c w)) = store w.
Proof. intros H; unfold call; destruct (ext w c); cbn; rewrite ?H; reflexivity. Qed.

(** [respond] issues exactly one call and leaves the store alone. *)
Lemma respond_run content embed eph view w :
  trace (snd (respond content embed eph view w)) =
    (trace w ++ [Send (responded w) content embed eph view])%list /\
  store (snd (respond content embed eph view w)) = store w.
Proof.
  unfold respond, call_, bind, is_done; cbn.
  pose proof (call_trace (Send (responded w) content embed eph view) w) as T.
  pose proof (call_store (Send (responded w) content embed eph view) w eq_refl) as S.
  destruct (call (Send (responded w) content embed eph view) w) as [[] w'] eqn:E;
  cbn in *; auto.
Qed.

Lemma respond_only content embed w :
  only_response (respond content embed true false) w content embed.
Proof. apply respond_run. Qed.

(** ** C1: the role-hierarchy guard *)

(** C1 (as amended).  In a server, with a member invoker whose highest role
    does not outrank the target's and who is not the owner, kick, ban, warn
    and timeout issue a single ephemeral error response and nothing else:
    no moderation action, no store write.  The error is the hierarchy error,
    except that kick and ban answer with the owner-immunity error when the
    target is the (resolved) guild owner, whose check comes first. *)
Theorem C1_hierarchy_guard_rejects (i : Interaction) (g : Guild) (author member : Member)
    (reason : string) (duration : Z) (w : World) :
  i_guild i = Some g -> i_user i = IMember author ->
  role_ge (guild_id g) (top_role member) (top_role author) = true ->
  mem_id author <> owner_id g ->
  only_response (kick i member reason) w None
    (Some (ErrorEmbed (Txt (if is_guild_owner g member then "You cannot kick the server owner."
                            else "You cannot kick someone with a higher or equal role.")))) /\
  only_response (ban i member reason) w None
    (Some (ErrorEmbed (Txt (if is_guild_owner g member then "You cannot ban the server owner."
                            else "You cannot ban someone with a higher or equal role.")))) /\
  only_response (warn i member reason) w None
    (Some (ErrorEmbed (Txt "You cannot warn someone with a higher or equal role."))) /\
  only_response (timeout i member duration reason) w None
    (Some (ErrorEmbed (Txt "You cannot timeout someone with a higher or equal role."))).
Proof.
  intros Hg Hu Hr Ho.
  assert (Hout : outranked g author member = true).
  { unfold outranked; rewrite Hr; cbn.
    destruct (Z.eqb_spec (mem_id author) (owner_id g)); [contradiction | reflexivity]. }
  unfold kick, ban, warn, timeout, with_guild_member; rewrite Hg, Hu, Hout.
  repeat split; try (destruct (is_guild_owner g member)); apply respond_only.
Qed.

Lemma C1_hierarchy_guard_rejects_witness :
  role_ge 100 (top_role ex_owner) (mkRole 12 2) = true /\ 2 <> owner_id ex_guild /\
  only_response (warn (mkInteraction (Some ex_guild) (IMember (mkMember 2 (mkRole 12 2))) None)
                   ex_owner "r") ex_world None
    (Some (ErrorEmbed (Txt "You cannot warn someone with a higher or equal role."))).
Proof.
  split; [reflexivity | split; [cbn; lia | ]].
  exact (proj1 (proj2 (proj2 (C1_hierarchy_guard_rejects
           (mkInteraction (Some ex_guild) (IMember (mkMember 2 (mkRole 12 2))) None)
           ex_guild (mkMember 2 (mkRole 12 2)) ex_owner "r" 10 ex_world
           eq_refl eq_refl eq_refl ltac:(cbn; lia))))).
Defined.

(** C1, as stated, fails: kicking the owner, whose highest role ties or
    outranks the moderator's, is refused with the owner-immunity error, not
    the hierarchy error. *)
Lemma C1_counterexample :
  let author := mkMember 2 (mkRole 12 2) in
  let i := mkInteraction (Some ex_guild) (IMember author) None in
  role_ge 100 (top_role ex_owner) (top_role author) = true /\ mem_id author <> owner_id ex_guild /\
  ~ only_response (kick i ex_owner "r") ex_world None
      (Some (ErrorEmbed (Txt "You cannot kick someone with a higher or equal role."))).
Proof.
  cbn. split; [reflexivity | split; [lia | ]].
  intros [H _]. vm_compute in H. discriminate.
Qed.

(** ** C2: owner immunity relies on [guild.owner] *)

(** C2 (failing input).  When [guild.owner] is not resolvable (None, the
    owner not in the member cache) the test [member == interaction.guild.owner]
    is false for the owner himself; a moderator whose highest role outranks
    the owner's then gets a kick call issued against the owner (id 1 =
    [guild.owner_id]) instead of the owner-immunity error. *)
Theorem C2_owner_not_resolved_kick_issued :
  let g := mkGuild 100 None 1 [500] in
  let author := mkMember 2 (mkRole 12 5) in
  let i := mkInteraction (Some g) (IMember author) None in
  mem_id ex_owner = owner_id g /\
  trace (snd (kick i ex_owner "r" ex_world)) =
    [Defer true; KickCall 1 (ByModerator "r" "Kicked" 2);
     LogAction 100 "kick" 1 2 (Some "r");
     Send true None (Some (MemberKicked 1 2 "r")) false false;
     GetServerSettings 100; ChannelSend 500 (MemberKicked 1 2 "r")].
Proof. split; reflexivity. Qed.

(** ** C5: the timeout auto action reads its duration without a default *)

(** C5 (failing input).  With [warn_threshold = 3], action "timeout" and no
    [warn_threshold_timeout_duration], the third warning makes [warn] raise
    [KeyError] ([self.bot.config["moderation"]["warn_threshold_timeout_duration"]]);
    the cog's error handler then answers ["❌ Error: ..."]. *)
Theorem C5_missing_duration_raises :
  let author := mkMember 2 (mkRole 12 5) in
  let target := mkMember 3 (mkRole 13 1) in
  let i := mkInteraction (Some ex_guild) (IMember author) None in
  let w := start ex_ok ex_store_two (Some ex_cfg_no_duration) in
  fst (warn i target "spam" w) = Raised KeyError /\
  last (trace (snd (dispatch i (CWarn target "spam") w))) (Defer true) =
    Send true (Some (CmdError KeyError)) None true false.
Proof. split; reflexivity. Qed.

(** ** C6: the modlog broadcast reads the settings outside any try *)

(** C6 (failing input).  If [get_server_settings] fails inside
    [_post_modlog], the exception escapes [warn] after its public result:
    the handler fails, the threshold kick that follows is never issued, and
    the error handler adds ["❌ Error: ..."]. *)
Theorem C6_settings_failure_escapes :
  let author := mkMember 2 (mkRole 12 5) in
  let target := mkMember 3 (mkRole 13 1) in
  let i := mkInteraction (Some ex_guild) (IMember author) None in
  let w := start ex_settings_down ex_store (Some ex_cfg_kick_at_1) in
  fst (warn i target "spam" w) = Raised (OtherError "store unavailable") /\
  trace (snd (dispatch i (CWarn target "spam") w)) =
    [Defer true; AddWarning 100 3 2 "spam"; LogAction 100 "warn" 3 2 (Some "spam");
     GetWarningCount 100 3;
     Send true None (Some (MemberWarned 3 1 2 "spam")) false false;
     GetServerSettings 100;
     Send true (Some (CmdError (OtherError "store unavailable"))) None true false] /\
  trace (snd (dispatch i (CWarn target "spam") (start ex_ok ex_store (Some ex_cfg_kick_at_1)))) =
    [Defer true; AddWarning 100 3 2 "spam"; LogAction 100 "warn" 3 2 (Some "spam");
     GetWarningCount 100 3;
     Send true None (Some (MemberWarned 3 1 2 "spam")) false false;
     GetServerSettings 100; ChannelSend 500 (MemberWarned 3 1 2 "spam");
     SendDM 3 (WarningDM 3 "spam" 1);
     KickCall 3 (ReachedWarnings 1);
     Send true (Some (AutoActionDone "kicked" 3 1)) None false false].
Proof. repeat split; reflexivity. Qed.

(** ** Runs on a platform where every call returns normally *)

(** Decide the comparisons of closed strings. *)
Ltac lits :=
  repeat match goal with
         | |- context [str_eqb ?a ?b] =>
             let v := eval vm_compute in (str_eqb a b) in
             lazymatch v with
             | true => change (str_eqb a b) with true
             | false => change (str_eqb a b) with false
             end
         end; cbv beta iota delta [orb andb negb].

Lemma lookup_settings_log_channel g l :
  exists o, py_get (lookup_settings g l) "log_channel" PNone =
            inl (match o with Some z => PInt z | None => PNone end).
Proof.
  induction l as [|[g' s] l IH]; cbn.
  - exists None; reflexivity.
  - destruct (g =? g'); [|exact IH].
    destruct s as [lc wc]; destruct lc as [lc|]; [exists (Some lc) | exists None];
      destruct wc; reflexivity.
Qed.

Lemma post_modlog_ok g emb w :
  all_succeed (ext w) ->
  exists w', post_modlog g emb w = (Ok tt, w') /\ ext w' = ext w /\ config w' = config w /\
    store w' = store w /\ responded w' = responded w /\
    exists l, trace w' = (trace w ++ l)%list /\ filter is_mod_action l = [].
Proof.
  intros Hs. destruct w as [e resp tr st cfg]; cbn in Hs.
  unfold post_modlog, bind, call, lift; cbn.
  destruct (Hs (GetServerSettings (guild_id g))) as [r Hr]; rewrite Hr; cbn.
  destruct (lookup_settings_log_channel (guild_id g) (server_settings st)) as [o Ho].
  rewrite Ho; cbn.
  destruct o as [z|]; cbn.
  - destruct (z =? 0); cbn.
    + eexists; split; [reflexivity|]. repeat split; auto.
      exists [GetServerSettings (guild_id g)]; auto.
    + destruct (existsb (Z.eqb z) (guild_channels g)); cbn.
      * unfold try_except, call_, bind, call; cbn.
        destruct (Hs (ChannelSend z emb)) as [r' Hr']; rewrite Hr'; cbn.
        eexists; split; [reflexivity|]. cbn; rewrite orb_false_r; repeat split; auto.
        exists [GetServerSettings (guild_id g); ChannelSend z emb].
        rewrite <- app_assoc; auto.
      * eexists; split; [reflexivity|]. repeat split; auto.
        exists [GetServerSettings (guild_id g)]; auto.
  - eexists; split; [reflexivity|]. repeat split; auto.
    exists [GetServerSettings (guild_id g)]; auto.
Qed.

(** Evaluate the monad's plumbing, leaving the oracle's answers,
    [post_modlog] and [warn_auto_action] untouched. *)
Ltac norm :=
  cbv beta iota zeta delta [bind call call_ ret raise respond respond_error is_done defer
                            try_except lift get_config get_store store_step is_store_call
                            answers ext responded trace store config fst snd orb andb negb
                            warnings action_log server_settings next_warning_id
                            has_delete_warning has_remove_warning].

(** Step through calls of a world [mkWorld e ...] whose oracle [e] always
    returns ([Hs : all_succeed e]). *)
Ltac run_calls Hs :=
  norm;
  repeat (match goal with
          | |- context [?e ?c] =>
              match type of e with
              | Call -> Outcome =>
                  let r := fresh "r" in let Hr := fresh "Hr" in
                  destruct (Hs c) as [r Hr]; rewrite Hr
              end
          end; norm).

Lemma member_warnings_after_add nid g m md r ws al ss n hd hr :
  member_warnings (mkStore (mkWarning (Some nid) None None g m md r :: ws) al ss n hd hr) g m =
  mkWarning (Some nid) None None g m md r :: member_warnings (mkStore ws al ss n hd hr) g m.
Proof. unfold member_warnings, of_member; cbn; rewrite !Z.eqb_refl; reflexivity. Qed.

(** [warn] past its guards: the warning is stored, logged, counted,
    announced and broadcast, the DM is attempted, and the auto action runs
    on the updated count.  No moderation action happens before it. *)
Lemma warn_run_prefix i g author member reason w :
  i_guild i = Some g -> i_user i = IMember author -> outranked g author member = false ->
  all_succeed (ext w) ->
  exists w1 l,
    warn i member reason w =
      warn_auto_action member (Z.of_nat (S (warning_count (store w) (guild_id g) (mem_id member)))) w1 /\
    trace w1 = (trace w ++ l)%list /\ filter is_mod_action l = [] /\
    ext w1 = ext w /\ config w1 = config w /\
    warning_count (store w1) (guild_id g) (mem_id member) =
      S (warning_count (store w) (guild_id g) (mem_id member)).
Proof.
  intros Hg Hu Hout Hs.
  destruct w as [e resp tr st cfg]; cbn in Hs.
  destruct st as [ws al ss nid hd hr].
  match goal with |- context [warn_auto_action member ?n] => set (K := warn_auto_action member n) end.
  unfold warn, with_guild_member; rewrite Hg, Hu, Hout.
  norm; destruct resp; run_calls Hs.
  all: rewrite !member_warnings_after_add; cbn [length].
  all: match goal with
       | |- context [post_modlog ?g' ?em ?w2] =>
           destruct (post_modlog_ok g' em w2 Hs)
             as ([e3 resp3 tr3 st3 cfg3] & Heq & He3 & Hc3 & Hst3 & Hresp3 & l3 & Ht3 & Hf3);
           rewrite Heq; cbn in He3, Hc3, Hst3, Hresp3, Ht3; subst; norm
       end.
  all: run_calls Hs.
  all: match goal with
       | |- exists w1 l, warn_auto_action ?m ?n ?W = _ /\ _ =>
           exists W; eexists; split;
             [subst K; apply (f_equal (fun k => warn_auto_action m k W));
              unfold warning_count, member_warnings; cbn; unfold of_member at 1; cbn;
              rewrite ?Z.eqb_refl; reflexivity|]
       end.
  all: cbn; split; [rewrite <- !app_assoc; reflexivity | ].
  all: split; [ | repeat split; auto].
  all: rewrite ?filter_app; cbn; rewrite ?Hf3; try reflexivity.
  all: unfold warning_count, member_warnings, of_member; cbn; rewrite ?Z.eqb_refl; reflexivity.
Qed.

Lemma truthy_dict_assoc k d v : assoc k d = Some v -> truthy (PDict d) = true.
Proof. destruct d; [discriminate | reflexivity]. Qed.

(** The auto action under a complete timeout configuration: one timeout
    of the configured duration once the count reaches the threshold, none
    below it. *)
Lemma warn_auto_timeout_run member n w cfg mc t d :
  all_succeed (ext w) -> config w = Some (PDict cfg) ->
  assoc "moderation" cfg = Some (PDict mc) ->
  assoc "warn_threshold" mc = Some (PInt t) -> 0 < t ->
  assoc "warn_threshold_action" mc = Some (PStr (lit "timeout")) ->
  assoc "warn_threshold_timeout_duration" mc = Some (PInt d) ->
  -999999999 <= d / 1440 <= 999999999 ->
  fst (warn_auto_action member n w) = Ok tt /\
  exists l, trace (snd (warn_auto_action member n w)) = (trace w ++ l)%list /\
    filter is_mod_action l =
      if t <=? n then [TimeoutCall (mem_id member) (Some d) (ReachedWarnings t)] else [].
Proof.
  intros Hs Hc Hm Ht Ht0 Ha Hd Hdr.
  assert (Hta : threshold_action (PDict mc) = inl (lit "timeout"))
    by (unfold threshold_action, py_get; rewrite Ha; reflexivity).
  destruct w as [e resp tr st cfg0]; cbn in Hs, Hc; subst cfg0.
  unfold warn_auto_action, moderation_config, int_or, bot_config,
    py_get, py_index, py_int, py_timedelta_minutes.
  norm. rewrite (truthy_dict_assoc _ _ _ Hm), Hm. norm. rewrite Ht, Hta. norm.
  replace (t <=? 0) with false by lia.
  lits. rewrite Z.geb_leb.
  destruct (t <=? n) eqn:Htn.
  - norm. rewrite Hm, Hd.
    rewrite (proj2 (Z.leb_le _ _) (proj1 Hdr)), (proj2 (Z.leb_le _ _) (proj2 Hdr)).
    run_calls Hs.
    split; [reflexivity|]. eexists; split; [rewrite <- app_assoc; reflexivity|reflexivity].
  - norm. split; [reflexivity|]. exists []; split; [rewrite app_nil_r; reflexivity|reflexivity].
Qed.

(** C3.  With [warn_threshold = t > 0], action "timeout" and a configured
    duration [d] (a valid [timedelta]), on a platform where every call
    returns normally, a [warn] past its guards issues, as moderation
    actions, exactly one timeout of [d] minutes with reason
    "Reached t warnings" when the updated count [n] is at least [t], and
    none when it is below; the test is [n >= t], so every warning from the
    [t]-th on triggers it again. *)
Theorem C3_timeout_at_threshold i g author member reason w cfg mc t d :
  i_guild i = Some g -> i_user i = IMember author -> outranked g author member = false ->
  all_succeed (ext w) -> config w = Some (PDict cfg) ->
  assoc "moderation" cfg = Some (PDict mc) ->
  assoc "warn_threshold" mc = Some (PInt t) -> 0 < t ->
  assoc "warn_threshold_action" mc = Some (PStr (lit "timeout")) ->
  assoc "warn_threshold_timeout_duration" mc = Some (PInt d) ->
  -999999999 <= d / 1440 <= 999999999 ->
  let n := Z.of_nat (S (warning_count (store w) (guild_id g) (mem_id member))) in
  fst (warn i member reason w) = Ok tt /\
  exists l, trace (snd (warn i member reason w)) = (trace w ++ l)%list /\
    filter is_mod_action l =
      if t <=? n then [TimeoutCall (mem_id member) (Some d) (ReachedWarnings t)] else [].
Proof.
  intros Hg Hu Hout Hs Hc Hm Ht Ht0 Ha Hd Hdr n.
  destruct (warn_run_prefix i g author member reason w Hg Hu Hout Hs)
    as (w1 & l1 & Heq & Htr & Hf & He & Hc1 & _).
  change (Z.of_nat (S (warning_count (store w) (guild_id g) (mem_id member)))) with n in Heq.
  rewrite Heq.
  rewrite <- He in Hs. rewrite <- Hc1 in Hc.
  destruct (warn_auto_timeout_run member n w1 cfg mc t d Hs Hc Hm Ht Ht0 Ha Hd Hdr)
    as (Hok & l2 & Htr2 & Hf2).
  split; [exact Hok|].
  exists (l1 ++ l2)%list; split.
  - rewrite Htr2, Htr, app_assoc; reflexivity.
  - rewrite filter_app, Hf, Hf2; reflexivity.
Qed.

Lemma C3_timeout_at_threshold_witness :
  (fst (warn (mkInteraction (Some ex_guild) (IMember ex_owner) None) (mkMember 3 (mkRole 13 1)) "spam"
          (start ex_ok ex_store_two (Some ex_cfg_timeout_60))) = Ok tt /\
   exists l, trace (snd (warn (mkInteraction (Some ex_guild) (IMember ex_owner) None)
                              (mkMember 3 (mkRole 13 1)) "spam"
                              (start ex_ok ex_store_two (Some ex_cfg_timeout_60)))) =
             ([] ++ l)%list /\
     filter is_mod_action l =
       if 3 <=? Z.of_nat (S (warning_count ex_store_two 100 3))
       then [TimeoutCall 3 (Some 60) (ReachedWarnings 3)] else []) /\
  Z.of_nat (S (warning_count ex_store_two 100 3)) = 3.
Proof.
  split; [|reflexivity].
  refine (C3_timeout_at_threshold (mkInteraction (Some ex_guild) (IMember ex_owner) None)
            ex_guild ex_owner (mkMember 3 (mkRole 13 1)) "spam"
            (start ex_ok ex_store_two (Some ex_cfg_timeout_60)) _ _ 3 60
            eq_refl eq_refl eq_refl _ eq_refl eq_refl eq_refl _ eq_refl eq_refl _).
  - intros c; unfold ex_ok; cbn; destruct c; eexists; reflexivity.
  - lia.
  - vm_compute; split; discriminate.
Defined.

(** ** Stepping lemmas *)

Lemma bind_ok {A B} (m : M A) (k : A -> M B) w a w' :
  m w = (Ok a, w') -> bind m k w = k a w'.
Proof. intros H; unfold bind; rewrite H; reflexivity. Qed.

Lemma bind_lift_ok {A B} (a : A) (k : A -> M B) : bind (lift (inl a)) k = k a.
Proof. reflexivity. Qed.

Lemma bind_lift_err {A B} (e : Exc) (k : A -> M B) w : bind (lift (inr e)) k w = (Raised e, w).
Proof. reflexivity. Qed.

Lemma call_returns c w r :
  is_store_call c = false -> ext w c = Returns r ->
  call c w = (Ok r, mkWorld (ext w) (responded w || answers c) (trace w ++ [c])%list
                            (store w) (config w)).
Proof. intros Hs He; unfold call; rewrite He, Hs; reflexivity. Qed.

Lemma call__trace c w : trace (snd (call_ c w)) = (trace w ++ [c])%list.
Proof.
  unfold call_, bind; pose proof (call_trace c w) as T.
  destruct (call c w) as [[] w']; exact T.
Qed.

Lemma call__store c w : is_store_call c = false -> store (snd (call_ c w)) = store w.
Proof.
  intros Hs; unfold call_, bind; pose proof (call_store c w Hs) as S.
  destruct (call c w) as [[] w']; exact S.
Qed.

Lemma respond_returns content embed eph view w r :
  ext w (Send (responded w) content embed eph view) = Returns r ->
  respond content embed eph view w =
    (Ok tt, mkWorld (ext w) (responded w || answers (Send (responded w) content embed eph view))
                    (trace w ++ [Send (responded w) content embed eph view])%list
                    (store w) (config w)).
Proof.
  intros He; unfold respond, call_, bind, is_done.
  rewrite (call_returns (Send (responded w) content embed eph view) w r eq_refl He); reflexivity.
Qed.

(** [try: msg = await interaction.original_response() except: msg = None]. *)
Lemma original_response_run w :
  exists msg w', try_except (call_ OriginalResponse ;; ret true) (fun _ => Some (ret false)) w =
                 (Ok msg, w') /\
    ext w' = ext w /\ config w' = config w /\ store w' = store w /\
    trace w' = (trace w ++ [OriginalResponse])%list.
Proof.
  cbv beta iota zeta delta [try_except bind call_ call ret is_store_call].
  destruct (ext w OriginalResponse); (eexists; eexists; split; [reflexivity | cbn; auto]).
Qed.

Lemma nbl_filters l :
  Forall no_ban_no_log l -> filter is_ban_call l = [] /\ filter is_log_call l = [].
Proof.
  induction 1 as [|c l [Hb Hl] _ [IH1 IH2]]; [split; reflexivity|].
  cbn; rewrite Hb, Hl, IH1, IH2; split; reflexivity.
Qed.

(** The guarded part of [ban] after a confirmation: one ban call, then the
    log write only if the ban call returned; the rest (result, broadcast,
    error replies) neither bans nor logs. *)
Lemma try_ban_log_counts (cb cl : Call) (T : M unit) (H : Exc -> option (M unit)) w :
  is_ban_call cb = true -> is_log_call cb = false -> is_store_call cb = false ->
  is_ban_call cl = false -> is_log_call cl = true ->
  footprint no_ban_no_log T -> (forall x k, H x = Some k -> footprint no_ban_no_log k) ->
  exists l, trace (snd (try_except (call_ cb ;; call_ cl ;; T) H w)) = (trace w ++ l)%list /\
    filter is_ban_call l = [cb] /\
    filter is_log_call l = match ext w cb with Returns _ => [cl] | _ => [] end.
Proof.
  intros Hb1 Hb2 Hb3 Hl1 Hl2 HT HH.
  assert (Hhandler : forall x w1 l1,
             trace w1 = (trace w ++ l1)%list ->
             exists l2, trace (snd (match H x with Some k => k w1 | None => (Raised x, w1) end)) =
                        (trace w ++ l1 ++ l2)%list /\ Forall no_ban_no_log l2).
  { intros x w1 l1 Ht1. destruct (H x) as [k|] eqn:Hk.
    - destruct (HH x k Hk w1) as (_ & _ & l2 & Ht2 & Hf2 & _).
      exists l2; split; [rewrite Ht2, Ht1, app_assoc; reflexivity | exact Hf2].
    - exists []; split; [cbn; rewrite Ht1, app_nil_r; reflexivity | constructor]. }
  unfold try_except, bind at 1, call_ at 1, bind at 1, call at 1.
  destruct (ext w cb) as [r|x|x] eqn:Eb.
  - rewrite Hb3. cbv beta iota zeta delta [ret].
    set (w1 := mkWorld (ext w) (responded w || answers cb) (trace w ++ [cb])%list (store w) (config w)).
    assert (Hc : forall w2 l2, trace w2 = (trace w1 ++ [cl] ++ l2)%list ->
                 Forall no_ban_no_log l2 ->
                 exists l, trace w2 = (trace w ++ l)%list /\ filter is_ban_call l = [cb] /\
                           filter is_log_call l = [cl]).
    { intros w2 l2 Ht2 Hf2. exists (cb :: cl :: l2); split.
      - rewrite Ht2; cbn; rewrite <- app_assoc; reflexivity.
      - destruct (nbl_filters l2 Hf2) as [F1 F2].
        cbn; rewrite Hb1, Hb2, Hl1, Hl2, F1, F2; split; reflexivity. }
    pose proof (call__trace cl w1) as Tc.
    unfold bind at 1.
    destruct (call_ cl w1) as [[[]|x] w2] eqn:Ec; cbn in Tc.
    + destruct (HT w2) as (_ & _ & l3 & Ht3 & Hf3 & _).
      destruct (T w2) as [[[]|x] w3] eqn:ET; cbn in Ht3.
      * apply (Hc w3 l3); [rewrite Ht3, Tc; unfold w1; cbn [trace]; rewrite <- !app_assoc; reflexivity | exact Hf3].
      * destruct (Hhandler x w3 ((cb :: cl :: l3))%list) as (l4 & Ht4 & Hf4).
        { rewrite Ht3, Tc; cbn; rewrite <- !app_assoc; reflexivity. }
        apply (Hc _ (l3 ++ l4)%list); [rewrite Ht4; unfold w1; cbn [trace app]; rewrite <- !app_assoc; reflexivity|].
        apply Forall_app; auto.
    + destruct (Hhandler x w2 ([cb; cl])%list) as (l4 & Ht4 & Hf4).
      { rewrite Tc; cbn; rewrite <- app_assoc; reflexivity. }
      apply (Hc _ l4); [rewrite Ht4; unfold w1; cbn [trace app]; rewrite <- !app_assoc; reflexivity | exact Hf4].
  - cbv beta iota.
    destruct (Hhandler x (mkWorld (ext w) (responded w) (trace w ++ [cb])%list (store w) (config w)) [cb] eq_refl)
      as (l4 & Ht4 & Hf4).
    exists (cb :: l4); split; [exact Ht4|].
    destruct (nbl_filters l4 Hf4) as [F1 F2].
    cbn; rewrite Hb1, Hb2, F1, F2; split; reflexivity.
  - rewrite Hb3; cbv beta iota zeta.
    destruct (Hhandler x (mkWorld (ext w) (responded w) (trace w ++ [cb])%list (store w) (config w)) [cb] eq_refl)
      as (l4 & Ht4 & Hf4).
    exists (cb :: l4); split; [exact Ht4|].
    destruct (nbl_filters l4 Hf4) as [F1 F2].
    cbn; rewrite Hb1, Hb2, F1, F2; split; reflexivity.
Qed.

(** C4 (as amended).  A [ban] past its guards whose prompt is delivered
    and whose confirmation view resolves to [v]: if [v] is not an
    acceptance (declined: [Some false]; timed out: [None]) it issues no ban
    call and no action-log write and leaves the store unchanged; if it is
    accepted it issues exactly one ban call, and one action-log write
    ("ban") exactly when that ban call returned normally. *)
Theorem C4_ban_confirmation i g author member reason w r0 v :
  i_guild i = Some g -> i_user i = IMember author ->
  is_guild_owner g member = false -> outranked g author member = false ->
  ext w (Send (responded w) (Some (AreYouSureBan (mem_id member))) None true true) = Returns r0 ->
  ext w ConfirmWait = Returns (RConfirm v) ->
  exists l, trace (snd (ban i member reason w)) = (trace w ++ l)%list /\
    (v <> Some true ->
       filter is_ban_call l = [] /\ filter is_log_call l = [] /\
       store (snd (ban i member reason w)) = store w) /\
    (v = Some true ->
       filter is_ban_call l = [BanCall (mem_id member) (ByModerator reason "Banned" (mem_id author))] /\
       filter is_log_call l =
         match ext w (BanCall (mem_id member) (ByModerator reason "Banned" (mem_id author))) with
         | Returns _ => [LogAction (guild_id g) "ban" (mem_id member) (mem_id author) (Some reason)]
         | _ => []
         end).
Proof.
  intros Hg Hu Ho Hout Hsend Hconf.
  unfold ban, with_guild_member; rewrite Hg, Hu, Ho, Hout; cbv beta iota.
  rewrite (bind_ok _ _ _ _ _ (respond_returns _ _ _ _ w r0 Hsend)).
  erewrite bind_ok; [| apply call_returns; [reflexivity | exact Hconf]].
  cbv beta iota zeta.
  match goal with
  | |- context [bind (try_except ?m ?h) ?k ?W] =>
      destruct (original_response_run W) as (msg & w3 & Hrun & He3 & Hc3 & Hs3 & Ht3);
      rewrite (bind_ok (try_except m h) k W msg w3 Hrun)
  end.
  cbn [ext trace store config] in He3, Ht3, Hs3.
  destruct v as [[|]|].
  - cbv beta iota delta [negb].
    match goal with
    | |- context [try_except (bind (call_ ?cb) (fun _ => bind (call_ ?cl) (fun _ => ?T))) ?H w3] =>
        assert (HT : footprint no_ban_no_log T) by (fp_solve; split; reflexivity);
        assert (HH : forall x k, H x = Some k -> footprint no_ban_no_log k)
          by (intros x k Hk; unfold forbidden_or_http in Hk; fp_solve; split; reflexivity);
        destruct (try_ban_log_counts cb cl T H w3 eq_refl eq_refl eq_refl eq_refl eq_refl HT HH)
          as (l & Hl & Hb & Hlog)
    end.
    exists ([Send (responded w) (Some (AreYouSureBan (mem_id member))) None true true;
             ConfirmWait; OriginalResponse] ++ l)%list.
    split; [rewrite Hl, Ht3, <- !app_assoc; reflexivity|].
    split; [intros Hv; exfalso; apply Hv; reflexivity|].
    intros _; rewrite !filter_app, Hb, Hlog, He3; split; reflexivity.
  - cbv beta iota delta [negb].
    exists ([Send (responded w) (Some (AreYouSureBan (mem_id member))) None true true;
             ConfirmWait; OriginalResponse] ++
            (if msg then [EditOriginal (Some (Txt "❌ Ban cancelled.")) None] else []))%list.
    destruct msg.
    + rewrite call__trace, call__store by reflexivity. rewrite Ht3, Hs3, <- !app_assoc.
      split; [reflexivity|]. split; [intros _; repeat split; reflexivity | intros; discriminate].
    + cbn [ret snd]. rewrite Ht3, Hs3, <- !app_assoc.
      split; [reflexivity|]. split; [intros _; repeat split; reflexivity | intros; discriminate].
  - cbv beta iota delta [negb].
    exists ([Send (responded w) (Some (AreYouSureBan (mem_id member))) None true true;
             ConfirmWait; OriginalResponse] ++
            (if msg then [EditOriginal (Some (Txt "❌ Ban cancelled.")) None] else []))%list.
    destruct msg.
    + rewrite call__trace, call__store by reflexivity. rewrite Ht3, Hs3, <- !app_assoc.
      split; [reflexivity|]. split; [intros _; repeat split; reflexivity | intros; discriminate].
    + cbn [ret snd]. rewrite Ht3, Hs3, <- !app_assoc.
      split; [reflexivity|]. split; [intros _; repeat split; reflexivity | intros; discriminate].
Qed.

Lemma C4_ban_confirmation_witness :
  exists l, trace (snd (ban (mkInteraction (Some ex_guild) (IMember (mkMember 2 (mkRole 12 5))) None)
                            (mkMember 3 (mkRole 13 1)) "spam" ex_world)) = (trace ex_world ++ l)%list /\
    (Some true <> Some true ->
       filter is_ban_call l = [] /\ filter is_log_call l = [] /\
       store (snd (ban (mkInteraction (Some ex_guild) (IMember (mkMember 2 (mkRole 12 5))) None)
                       (mkMember 3 (mkRole 13 1)) "spam" ex_world)) = store ex_world) /\
    (Some true = Some true ->
       filter is_ban_call l = [BanCall 3 (ByModerator "spam" "Banned" 2)] /\
       filter is_log_call l =
         match ext ex_world (BanCall 3 (ByModerator "spam" "Banned" 2)) with
         | Returns _ => [LogAction 100 "ban" 3 2 (Some "spam")]
         | _ => []
         end).
Proof.
  exact (C4_ban_confirmation (mkInteraction (Some ex_guild) (IMember (mkMember 2 (mkRole 12 5))) None)
           ex_guild (mkMember 2 (mkRole 12 5)) (mkMember 3 (mkRole 13 1)) "spam" ex_world RUnit (Some true)
           eq_refl eq_refl eq_refl eq_refl eq_refl eq_refl).
Defined.

(** C4, as stated, fails: an accepted confirmation whose ban call is
    refused ([discord.Forbidden]) writes no action-log entry; the prompt is
    edited to the permission error instead. *)
Lemma C4_counterexample :
  let i := mkInteraction (Some ex_guild) (IMember (mkMember 2 (mkRole 12 5))) None in
  let w := start ex_ban_forbidden ex_store None in
  ext w ConfirmWait = Returns (RConfirm (Some true)) /\
  trace (snd (ban i (mkMember 3 (mkRole 13 1)) "spam" w)) =
    [Send false (Some (AreYouSureBan 3)) None true true; ConfirmWait; OriginalResponse;
     BanCall 3 (ByModerator "spam" "Banned" 2);
     EditOriginal (Some (Txt "❌ I don't have permission to ban this member.")) None] /\
  action_log (store (snd (ban i (mkMember 3 (mkRole 13 1)) "spam" w))) = [].
Proof. repeat split; reflexivity. Qed.

Lemma length_filter_remove_first {A} (p : A -> bool) (l : list A) :
  length (filter p (remove_first p l)) = (length (filter p l) - 1)%nat.
Proof.
  induction l as [|x l IH]; [reflexivity|].
  cbn; destruct (p x) eqn:Hx; cbn; [lia|]. rewrite Hx; exact IH.
Qed.

(** C7.  [unwarn] on a member with at least one warning, on a platform
    where every call returns normally, against a store without
    [delete_warning]: with [remove_warning] (the coarse capability) it
    succeeds, the member's count drops by exactly one and the success reply
    comes last; with neither capability it ends with the "not supported"
    error, having written nothing (no action-log entry, store unchanged). *)
Theorem C7_unwarn_capabilities i g member w :
  i_guild i = Some g -> all_succeed (ext w) ->
  (1 <= warning_count (store w) (guild_id g) (mem_id member))%nat ->
  has_delete_warning (store w) = false ->
  (has_remove_warning (store w) = true ->
     fst (unwarn i member w) = Ok tt /\
     S (warning_count (store (snd (unwarn i member w))) (guild_id g) (mem_id member)) =
       warning_count (store w) (guild_id g) (mem_id member) /\
     exists l, trace (snd (unwarn i member w)) =
       (trace w ++ l ++
        [Send true None (Some (SuccessEmbed (RemovedOneWarning (mem_id member)
           (Z.of_nat (warning_count (store w) (guild_id g) (mem_id member) - 1))))) true false])%list) /\
  (has_remove_warning (store w) = false ->
     store (snd (unwarn i member w)) = store w /\
     exists l, trace (snd (unwarn i member w)) =
       (trace w ++ l ++
        [Send true None (Some (ErrorEmbed (Txt "Unwarn is not supported by your DB backend. Use /clearwarnings instead."))) true false])%list /\
       filter is_store_write l = []).
Proof.
  intros Hg Hs Hc Hd.
  destruct w as [e resp tr st cfg]; cbn in Hs, Hc, Hd |- *.
  destruct st as [ws al ss nid hd hr]; cbn in Hd |- *; subst hd.
  unfold warning_count in Hc |- *.
  destruct (member_warnings (mkStore ws al ss nid false hr) (guild_id g) (mem_id member))
    as [|latest rest] eqn:Em; [cbn in Hc; lia|].
  unfold unwarn, with_guild; rewrite Hg.
  split; intros Hr; subst hr.
  - norm; destruct resp; run_calls Hs; unfold warnings_of; rewrite Em; norm;
      destruct (py_or _ _); run_calls Hs.
    all: cbv [with_warnings]; norm.
    all: unfold member_warnings in *; cbn [warnings] in *.
    all: rewrite length_filter_remove_first, Em.
    all: split; [reflexivity|]; split; [cbn; lia|].
    all: rewrite <- !app_assoc; cbn [app];
         match goal with |- exists l, (_ ++ ?L)%list = _ => exists (removelast L); reflexivity end.

  - norm; destruct resp; run_calls Hs; unfold warnings_of; rewrite Em; norm;
      destruct (py_or _ _); run_calls Hs.
    all: split; [reflexivity|].
    all: rewrite <- !app_assoc; cbn [app];
         match goal with |- exists l, (_ ++ ?L)%list = _ /\ _ =>
           exists (removelast L); split; reflexivity end.
Qed.

Lemma ex_ok_all_succeed : all_succeed ex_ok.
Proof. intros c; destruct c; eexists; reflexivity. Qed.

Lemma C7_unwarn_capabilities_witness :
  let i := mkInteraction (Some ex_guild) (IMember (mkMember 2 (mkRole 12 5))) None in
  let w := start ex_ok ex_store_coarse None in
  fst (unwarn i (mkMember 3 (mkRole 13 1)) w) = Ok tt /\
  S (warning_count (store (snd (unwarn i (mkMember 3 (mkRole 13 1)) w))) 100 3) =
    warning_count (store w) 100 3 /\
  exists l, trace (snd (unwarn i (mkMember 3 (mkRole 13 1)) w)) =
    (trace w ++ l ++
     [Send true None (Some (SuccessEmbed (RemovedOneWarning 3
        (Z.of_nat (warning_count (store w) 100 3 - 1))))) true false])%list.
Proof.
  exact (proj1 (C7_unwarn_capabilities
                  (mkInteraction (Some ex_guild) (IMember (mkMember 2 (mkRole 12 5))) None)
                  ex_guild (mkMember 3 (mkRole 13 1)) (start ex_ok ex_store_coarse None)
                  eq_refl ex_ok_all_succeed (le_n 1) eq_refl) eq_refl).
Defined.




(** C9.  The three spellings "123456789", "<@123456789>" and
    "<@!123456789>" clean to the same identifier 123456789, so in any
    server context and any world [unban] behaves identically on them and
    goes on to fetch user 123456789 (shown on a platform where every call
    returns); "abc" is refused with the invalid-ID error as the only call. *)
Theorem C9_unban_id_cleaning (g : Guild) (author : Member) (ch : option Channel) (w : World) :
  clean_user_id (lit "123456789") = lit "123456789" /\
  clean_user_id (lit "<@123456789>") = lit "123456789" /\
  clean_user_id (lit "<@!123456789>") = lit "123456789" /\
  isdigit (lit "123456789") = true /\ int_of_str (lit "123456789") = inl 123456789 /\
  unban (mkInteraction (Some g) (IMember author) ch) (lit "<@123456789>") w =
    unban (mkInteraction (Some g) (IMember author) ch) (lit "123456789") w /\
  unban (mkInteraction (Some g) (IMember author) ch) (lit "<@!123456789>") w =
    unban (mkInteraction (Some g) (IMember author) ch) (lit "123456789") w /\
  trace (snd (unban (mkInteraction (Some ex_guild) (IMember (mkMember 2 (mkRole 12 5))) None)
                    (lit "123456789") ex_world)) =
    [Defer true; FetchUser 123456789; UnbanCall 123456789;
     LogAction 100 "unban" 123456789 2 None;
     Send true None (Some (UserUnbanned 123456789 2)) false false;
     GetServerSettings 100; ChannelSend 500 (UserUnbanned 123456789 2)] /\
  isdigit (clean_user_id (lit "abc")) = false /\
  only_response (unban (mkInteraction (Some g) (IMember author) ch) (lit "abc")) w None
    (Some (ErrorEmbed (Txt "Please provide a valid user ID."))).
Proof.
  assert (E1 : clean_user_id (lit "123456789") = lit "123456789") by reflexivity.
  assert (E2 : clean_user_id (lit "<@123456789>") = lit "123456789") by reflexivity.
  assert (E3 : clean_user_id (lit "<@!123456789>") = lit "123456789") by reflexivity.
  split; [exact E1|]. split; [exact E2|]. split; [exact E3|].
  split; [reflexivity|]. split; [reflexivity|].
  split; [unfold unban, with_guild_member; cbv beta iota; rewrite E1, E2; reflexivity|].
  split; [unfold unban, with_guild_member; cbv beta iota; rewrite E1, E3; reflexivity|].
  split; [reflexivity|]. split; [reflexivity|].
  unfold unban, with_guild_member; cbv beta iota.
  replace (isdigit (clean_user_id (lit "abc"))) with false by reflexivity.
  apply respond_only.
Qed.

(** ** [str.replace] against the structural deletions *)

Lemma remove_all_fuel_nil f pat : remove_all_fuel f pat [] = [].
Proof. destruct f; reflexivity. Qed.

Lemma remove_char_fuel d f s :
  (length s <= f)%nat -> remove_all_fuel f [d] s = delete_char d s.
Proof.
  revert s; induction f as [|f IH]; intros s Hl.
  - destruct s; [reflexivity | cbn in Hl; lia].
  - destruct s as [|c s]; [reflexivity|]. cbn in Hl |- *.
    rewrite andb_true_r, (Z.eqb_sym d c).
    destruct (c =? d); rewrite IH by lia; reflexivity.
Qed.

Lemma py_remove_char d s : py_remove [d] s = delete_char d s.
Proof. apply remove_char_fuel; lia. Qed.

Lemma remove_mention_fuel f s :
  (length s <= f)%nat -> remove_all_fuel f [60; 64] s = delete_mention s.
Proof.
  revert s; induction f as [|f IH]; intros s Hl.
  - destruct s; [reflexivity | cbn in Hl; lia].
  - destruct s as [|c s]; [reflexivity|]. cbn in Hl.
    cbn [remove_all_fuel delete_mention prefixb].
    rewrite (Z.eqb_sym 60 c).
    destruct (c =? 60) eqn:Ec.
    + destruct s as [|d r].
      * cbn. rewrite remove_all_fuel_nil; reflexivity.
      * cbn [prefixb andb]. rewrite (Z.eqb_sym 64 d), andb_true_r.
        destruct (d =? 64) eqn:Ed.
        -- cbn [skipn length]. apply IH; cbn in Hl; lia.
        -- apply Z.eqb_eq in Ec; subst c. rewrite IH by (cbn in Hl |- *; lia). reflexivity.
    + cbn [andb]. rewrite IH by lia. reflexivity.
Qed.

Lemma py_remove_mention s : py_remove [60; 64] s = delete_mention s.
Proof. apply remove_mention_fuel; lia. Qed.

Lemma clean_user_id_spec s : clean_user_id s = spec_clean_user_id s.
Proof.
  unfold clean_user_id, spec_clean_user_id.
  change (lit "<@") with [60; 64]. change (lit ">") with [62]. change (lit "!") with [33].
  rewrite py_remove_mention, !py_remove_char; reflexivity.
Qed.

Lemma defer_run w :
  exists w', defer w = (Ok tt, w') /\
    trace w' = (trace w ++ (if responded w then [] else [Defer true]))%list.
Proof.
  unfold defer, bind, is_done; cbn.
  destruct (responded w); cbn.
  - eexists; split; [reflexivity | rewrite app_nil_r; reflexivity].
  - unfold try_except, call_, bind, call, ret; cbn.
    destruct (ext w (Defer true)); cbn; (eexists; split; [reflexivity | reflexivity]).
Qed.

Lemma defer_store w : store (snd (defer w)) = store w.
Proof.
  unfold defer, bind, is_done; cbn.
  destruct (responded w); cbn; [reflexivity|].
  unfold try_except, call_, bind, call, ret; cbn.
  destruct (ext w (Defer true)); reflexivity.
Qed.

(** A [try] block that starts with a call issues that call first. *)
Lemma try_call_prefix {A} c (k : unit -> M A) h w :
  (forall a, footprint (fun _ => True) (k a)) ->
  (forall e m, h e = Some m -> footprint (fun _ => True) m) ->
  exists l, trace (snd (try_except (bind (call_ c) k) h w)) = (trace w ++ c :: l)%list.
Proof.
  intros Hk Hh. pose proof (call__trace c w) as T.
  unfold try_except, bind at 1.
  assert (Hhandler : forall e w1 l1, trace w1 = (trace w ++ c :: l1)%list ->
            exists l, trace (snd (match h e with Some m => m w1 | None => (Raised e, w1) end)) =
                      (trace w ++ c :: l)%list).
  { intros e w1 l1 H1. destruct (h e) as [m|] eqn:He.
    - destruct (Hh e m He w1) as (_ & _ & l2 & H2 & _).
      exists (l1 ++ l2)%list; rewrite H2, H1, <- app_assoc; reflexivity.
    - exists l1; exact H1. }
  destruct (call_ c w) as [[a|e] w1] eqn:E; cbn in T.
  - destruct (Hk a w1) as (_ & _ & l & Hl & _).
    destruct (k a w1) as [[b|e] w2] eqn:E2; cbn in Hl.
    + exists l; cbn; rewrite Hl, T, <- app_assoc; reflexivity.
    + apply (Hhandler e w2 l); rewrite Hl, T, <- app_assoc; reflexivity.
  - apply (Hhandler e w1 []); exact T.
Qed.

Ltac fp_true :=
  fp_solve;
  repeat first [ apply fp_respond_error | apply fp_respond | apply fp_post_modlog
               | exact I | intros ? ];
  try fp_solve.

(** C10.  [unban]'s cleaning is exactly "strip, then delete every
    occurrence of <@, of > and of !" ([spec_clean_user_id]), and the input
    passes the [isdigit] check iff that leaves a non-empty string of
    digits in Python's sense ([str.isdigit]: Unicode digits included).  A
    rejected input only gets the invalid-ID error.  An accepted input is
    deferred and then converted by [int]: when that gives [uid], [unban]
    goes on to fetch user [uid]; when it fails (a digit that is not a
    decimal digit, as the superscript two, or more than 4300 digits), the
    [ValueError] escapes after the deferral, with nothing fetched and the
    store unchanged.  Decorations between the digits are removed too:
    "12!34>56" is accepted as 123456; the Arabic-Indic digits one, two,
    three (U+0661 to U+0663) are accepted as 123; the superscript two
    (U+00B2) is accepted and then fails in [int]. *)
Theorem C10_unban_acceptance (g : Guild) (author : Member) (ch : option Channel) (w : World)
    (s : pystr) :
  clean_user_id s = spec_clean_user_id s /\
  (isdigit (clean_user_id s) = true <->
     spec_clean_user_id s <> [] /\ all_digits (spec_clean_user_id s) = true) /\
  (isdigit (clean_user_id s) = false ->
     only_response (unban (mkInteraction (Some g) (IMember author) ch) s) w None
       (Some (ErrorEmbed (Txt "Please provide a valid user ID.")))) /\
  (isdigit (clean_user_id s) = true -> forall uid, int_of_str (clean_user_id s) = inl uid ->
     exists l, trace (snd (unban (mkInteraction (Some g) (IMember author) ch) s w)) =
       (trace w ++ (if responded w then [] else [Defer true]) ++ FetchUser uid :: l)%list) /\
  (isdigit (clean_user_id s) = true -> forall e, int_of_str (clean_user_id s) = inr e ->
     fst (unban (mkInteraction (Some g) (IMember author) ch) s w) = Raised e /\
     trace (snd (unban (mkInteraction (Some g) (IMember author) ch) s w)) =
       (trace w ++ (if responded w then [] else [Defer true]))%list /\
     store (snd (unban (mkInteraction (Some g) (IMember author) ch) s w)) = store w) /\
  spec_clean_user_id (lit "12!34>56") = lit "123456" /\
  isdigit (clean_user_id (lit "12!34>56")) = true /\
  int_of_str (clean_user_id (lit "12!34>56")) = inl 123456 /\
  isdigit (clean_user_id [1633; 1634; 1635]) = true /\
  int_of_str (clean_user_id [1633; 1634; 1635]) = inl 123 /\
  isdigit (clean_user_id [178]) = true /\ int_of_str (clean_user_id [178]) = inr ValueError.
Proof.
  split; [apply clean_user_id_spec|].
  split.
  { rewrite clean_user_id_spec. unfold isdigit, all_digits.
    destruct (spec_clean_user_id s) as [|c r].
    - split; [discriminate | intros [H _]; contradiction].
    - split; [intros H; split; [discriminate | exact H] | intros [_ H]; exact H]. }
  split.
  { intros Hd. unfold unban, with_guild_member; cbv beta iota zeta.
    rewrite Hd. apply respond_only. }
  split.
  { intros Hd uid Hu. unfold unban, with_guild_member; cbn [i_guild i_user]; cbv beta iota zeta.
    rewrite Hd; cbv beta iota delta [negb].
    destruct (defer_run w) as (w1 & Hrun & Ht1).
    rewrite (bind_ok _ _ _ _ _ Hrun), Hu, bind_lift_ok.
    match goal with
    | |- context [try_except (bind (call_ ?c) ?k) ?h w1] =>
        destruct (try_call_prefix c k h w1) as (l & Hl);
        [ intros ?; fp_true | intros ? ? Hk; unfold forbidden_or_http in Hk; fp_true | ]
    end.
    exists l; rewrite Hl, Ht1, <- app_assoc; reflexivity. }
  split.
  { intros Hd e He. unfold unban, with_guild_member; cbn [i_guild i_user]; cbv beta iota zeta.
    rewrite Hd; cbv beta iota delta [negb].
    destruct (defer_run w) as (w1 & Hrun & Ht1).
    pose proof (defer_store w) as Hs1; rewrite Hrun in Hs1; cbn [snd] in Hs1.
    rewrite (bind_ok _ _ _ _ _ Hrun), He, bind_lift_err.
    split; [reflexivity | split; [exact Ht1 | exact Hs1]]. }
  repeat split; vm_compute; reflexivity.
Qed.

Lemma C10_unban_acceptance_witness :
  isdigit (clean_user_id [1633; 1634; 1635]) = true /\
  int_of_str (clean_user_id [1633; 1634; 1635]) = inl 123 /\
  exists l, trace (snd (unban (mkInteraction (Some ex_guild) (IMember (mkMember 2 (mkRole 12 5))) None)
                              [1633; 1634; 1635] ex_world)) =
    (trace ex_world ++ (if responded ex_world then [] else [Defer true]) ++ FetchUser 123 :: l)%list.
Proof.
  assert (H1 : isdigit (clean_user_id [1633; 1634; 1635]) = true) by (vm_compute; reflexivity).
  assert (H2 : int_of_str (clean_user_id [1633; 1634; 1635]) = inl 123) by (vm_compute; reflexivity).
  split; [exact H1|]. split; [exact H2|].
  exact (proj1 (proj2 (proj2 (proj2 (C10_unban_acceptance ex_guild (mkMember 2 (mkRole 12 5)) None
                                       ex_world [1633; 1634; 1635])))) H1 123 H2).
Defined.

(** ** Further properties of the cog *)

Lemma lookup_settings_stored g l :
  py_get (lookup_settings g l) "log_channel" PNone =
    inl (match stored_log_channel g l with Some z => PInt z | None => PNone end).
Proof.
  induction l as [|[g' [lc wc]] l IH]; cbn; [reflexivity|].
  destruct (g =? g'); [|exact IH].
  destruct lc, wc; reflexivity.
Qed.

Lemma existsb_in_dec c l :
  existsb (Z.eqb c) l = if in_dec Z.eq_dec c l then true else false.
Proof.
  destruct (in_dec Z.eq_dec c l) as [H|H].
  - apply existsb_exists; exists c; split; [exact H | apply Z.eqb_refl].
  - destruct (existsb (Z.eqb c) l) eqn:E; [|reflexivity].
    apply existsb_exists in E as (x & Hx & Hc); apply Z.eqb_eq in Hc; subst; contradiction.
Qed.

(** [_post_modlog]: once the settings read returns, the broadcast never
    fails and never writes the store.  It posts the embed once, to the
    guild's stored log channel, when one is set, non-zero (0 is falsy) and
    a channel of the guild; otherwise it posts nothing.  A failing post is
    swallowed. *)
Theorem post_modlog_channel g embed w r :
  ext w (GetServerSettings (guild_id g)) = Returns r ->
  fst (post_modlog g embed w) = Ok tt /\
  store (snd (post_modlog g embed w)) = store w /\
  trace (snd (post_modlog g embed w)) =
    (trace w ++ GetServerSettings (guild_id g) ::
       match stored_log_channel (guild_id g) (server_settings (store w)) with
       | Some c => if c =? 0 then []
                   else if in_dec Z.eq_dec c (guild_channels g) then [ChannelSend c embed] else []
       | None => []
       end)%list.
Proof.
  intros Hr. destruct w as [e resp tr st cfg]; cbn in Hr |- *.
  unfold post_modlog, bind, call, lift, ret; cbn; rewrite Hr; cbn.
  rewrite lookup_settings_stored.
  destruct (stored_log_channel (guild_id g) (server_settings st)) as [c|]; cbn; [|auto].
  destruct (c =? 0); cbn; [auto|].
  unfold get_channel; rewrite existsb_in_dec.
  destruct (in_dec Z.eq_dec c (guild_channels g)); cbn; [|auto].
  unfold try_except, call_, bind, call, ret; cbn.
  destruct (e (ChannelSend c embed)); cbn; rewrite <- app_assoc; auto.
Qed.

Lemma post_modlog_channel_witness :
  ext ex_world (GetServerSettings (guild_id ex_guild)) = Returns RUnit /\
  trace (snd (post_modlog ex_guild FeaturesEmbed ex_world)) =
    [GetServerSettings 100; ChannelSend 500 FeaturesEmbed].
Proof.
  split; [reflexivity|].
  destruct (post_modlog_channel ex_guild FeaturesEmbed ex_world RUnit eq_refl) as (_ & _ & H).
  rewrite H; reflexivity.
Defined.


(** [_defer] never raises and never touches the store: it defers once
    (ephemerally) if the interaction is not answered yet, and nothing
    otherwise; the interaction counts as answered afterwards only if it was
    already, or the deferral returned. *)
Theorem defer_never_fails w :
  fst (defer w) = Ok tt /\ store (snd (defer w)) = store w /\
  trace (snd (defer w)) = (trace w ++ (if responded w then [] else [Defer true]))%list /\
  responded (snd (defer w)) =
    (responded w || match ext w (Defer true) with Returns _ => true | _ => false end).
Proof.
  destruct w as [e resp tr st cfg]; cbn.
  unfold defer, bind, is_done; cbn.
  destruct resp; cbn.
  - rewrite app_nil_r; auto.
  - unfold try_except, call_, bind, call, ret; cbn.
    destruct (e (Defer true)); cbn; auto.
Qed.

(** The cog's error handler: a handler that returns is left as is; an
    exception escaping the command is answered with one ephemeral
    ["❌ Error: {error}"], a followup if the interaction was already
    answered, an initial response otherwise; the error is then gone unless
    that reply fails. *)
Theorem dispatch_error_reply i c w :
  match handler i c w with
  | (Ok a, w') => dispatch i c w = (Ok a, w')
  | (Raised e, w') =>
      let reply := Send (responded w') (Some (CmdError e)) None true false in
      trace (snd (dispatch i c w)) = (trace w' ++ [reply])%list /\
      store (snd (dispatch i c w)) = store w' /\
      fst (dispatch i c w) = match ext w' reply with Returns _ => Ok tt | Raises e' | RaisesLate e' => Raised e' end
  end.
Proof.
  unfold dispatch, try_except.
  destruct (handler i c w) as [[a|e] w']; [reflexivity|].
  destruct w' as [e' resp tr st cfg]; cbn.
  unfold respond, call_, bind, is_done, call, ret; cbn.
  destruct (e' (Send resp (Some (CmdError e)) None true false)); cbn; auto.
Qed.


(** [purge] with an amount above [max_purge_amount] (read with Python's
    [int], which strips Unicode whitespace and reads Unicode decimal
    digits; 100 when the configuration holds no value [int] accepts) only
    answers
    ["Max purge amount is ..."]:
    no deferral, no purge, no store write. *)
Theorem purge_over_limit i g amount w mc :
  i_guild i = Some g -> moderation_config (config w) = inl mc ->
  int_or mc "max_purge_amount" 100 < amount ->
  only_response (purge i amount) w None
    (Some (ErrorEmbed (MaxPurge (int_or mc "max_purge_amount" 100)))).
Proof.
  intros Hg Hmc Hlt. unfold only_response, purge, with_guild; rewrite Hg.
  cbv beta iota zeta delta [bind get_config]. rewrite Hmc.
  cbv beta iota delta [lift ret].
  rewrite (proj2 (Z.gtb_lt _ _) Hlt).
  apply respond_only.
Qed.

Lemma purge_over_limit_witness :
  moderation_config (Some ex_cfg_purge_50) = inl ex_mod_purge_50 /\
  int_or ex_mod_purge_50 "max_purge_amount" 100 = 50 /\
  int_or ex_mod_purge_50 "max_purge_amount" 100 < 60 /\
  only_response (purge ex_inter 60) (start ex_ok ex_store (Some ex_cfg_purge_50)) None
    (Some (ErrorEmbed (MaxPurge 50))).
Proof.
  assert (H : int_or ex_mod_purge_50 "max_purge_amount" 100 = 50) by (vm_compute; reflexivity).
  split; [reflexivity|]. split; [exact H|]. split; [rewrite H; reflexivity|].
  rewrite <- H.
  exact (purge_over_limit ex_inter ex_guild 60 (start ex_ok ex_store (Some ex_cfg_purge_50))
           ex_mod_purge_50 eq_refl eq_refl ltac:(rewrite H; reflexivity)).
Defined.


(** [purge] within the limit, in a channel that can purge, on a platform
    where every call returns: defer, purge exactly [amount] messages once,
    report the number deleted, and log one "purge" entry whose target and
    moderator are both the invoker. *)
Theorem purge_runs i g ch amount w mc :
  i_guild i = Some g -> i_channel i = Some ch -> has_purge ch = true ->
  moderation_config (config w) = inl mc -> amount <= int_or mc "max_purge_amount" 100 ->
  all_succeed (ext w) ->
  fst (purge i amount w) = Ok tt /\
  exists n,
    let uid := invoker_id (i_user i) in
    let why := Some ("Purged " ++ int_text n ++ " messages") in
    trace (snd (purge i amount w)) =
      (trace w ++ [Defer true; PurgeCall (channel_id ch) amount;
                   Send true None (Some (SuccessEmbed (DeletedMessages n))) true false;
                   LogAction (guild_id g) "purge" uid uid why])%list /\
    action_log (store (snd (purge i amount w))) =
      (action_log (store w) ++ [mkLog (guild_id g) "purge" uid uid why])%list.
Proof.
  intros Hg Hch Hp Hmc Hle Hs.
  destruct w as [e resp tr st cfg]; cbn in Hmc, Hs |- *.
  unfold purge, with_guild; rewrite Hg, Hch, Hp.
  cbv beta iota zeta delta [bind get_config config]. rewrite Hmc.
  cbv beta iota delta [lift ret].
  replace (amount >? int_or mc "max_purge_amount" 100) with false
    by (rewrite Z.gtb_ltb; symmetry; apply Z.ltb_ge; exact Hle).
  run_calls Hs.
  split; [reflexivity|].
  exists (match r0 with RInt n => n | _ => 0 end); cbn.
  rewrite <- !app_assoc; split; reflexivity.
Qed.

Lemma purge_runs_witness :
  50 <= int_or (PDict []) "max_purge_amount" 100 /\
  exists n, trace (snd (purge ex_inter 50 ex_world)) =
    [Defer true; PurgeCall 500 50; Send true None (Some (SuccessEmbed (DeletedMessages n))) true false;
     LogAction 100 "purge" 2 2 (Some ("Purged " ++ int_text n ++ " messages"))].
Proof.
  split; [vm_compute; discriminate|].
  destruct (purge_runs ex_inter ex_guild (mkChannel 500 true) 50 ex_world (PDict [])
              eq_refl eq_refl eq_refl eq_refl ltac:(vm_compute; discriminate) ex_ok_all_succeed)
    as (_ & n & Ht & _).
  exists n; exact Ht.
Defined.


(** [purge] within the limit without a channel, or in one without
    [purge], defers and then only sends the text-channel error followup;
    nothing is purged or stored. *)
Theorem purge_needs_text_channel i g amount w mc r :
  i_guild i = Some g ->
  (i_channel i = None \/ exists ch, i_channel i = Some ch /\ has_purge ch = false) ->
  moderation_config (config w) = inl mc -> amount <= int_or mc "max_purge_amount" 100 ->
  ext w (Defer true) = Returns r ->
  trace (snd (purge i amount w)) =
    (trace w ++ [Defer true; Send true None (Some (ErrorEmbed
       (Txt "This command can only be used in a text-based channel."))) true false])%list /\
  store (snd (purge i amount w)) = store w.
Proof.
  intros Hg Hch Hmc Hle Hr.
  destruct w as [e resp tr st cfg]; cbn in Hmc, Hr |- *.
  unfold purge, with_guild; rewrite Hg.
  cbv beta iota zeta delta [bind get_config config]. rewrite Hmc.
  cbv beta iota delta [lift ret].
  replace (amount >? int_or mc "max_purge_amount" 100) with false
    by (rewrite Z.gtb_ltb; symmetry; apply Z.ltb_ge; exact Hle).
  destruct Hch as [Hch | (ch & Hch & Hp)]; rewrite Hch; [|rewrite Hp];
  norm; rewrite Hr; norm;
  destruct (e (Send true None _ true false)); cbn; rewrite <- ?app_assoc; auto.
Qed.

Lemma purge_needs_text_channel_witness :
  trace (snd (purge (mkInteraction (Some ex_guild) (IMember ex_mod) None) 10 ex_world)) =
    [Defer true; Send true None (Some (ErrorEmbed
       (Txt "This command can only be used in a text-based channel."))) true false].
Proof.
  exact (proj1 (purge_needs_text_channel (mkInteraction (Some ex_guild) (IMember ex_mod) None)
                  ex_guild 10 ex_world (PDict []) RUnit eq_refl (or_introl eq_refl) eq_refl
                  ltac:(vm_compute; discriminate) eq_refl)).
Defined.


(** A [purge] call that raises writes no log entry and leaves the store
    unchanged; a Forbidden or other HTTP error is answered with its
    followup, any other exception escapes. *)
Theorem purge_failure_no_log i g ch amount w mc r x :
  i_guild i = Some g -> i_channel i = Some ch -> has_purge ch = true ->
  moderation_config (config w) = inl mc -> amount <= int_or mc "max_purge_amount" 100 ->
  ext w (Defer true) = Returns r -> ext w (PurgeCall (channel_id ch) amount) = Raises x ->
  store (snd (purge i amount w)) = store w /\
  trace (snd (purge i amount w)) =
    (trace w ++ [Defer true; PurgeCall (channel_id ch) amount] ++
     (if is_forbidden x
      then [Send true None (Some (ErrorEmbed (Txt "I don't have permission to delete messages here."))) true false]
      else if is_http x
      then [Send true None (Some (ErrorEmbed (Txt "Failed to delete messages. Messages might be too old."))) true false]
      else []))%list /\
  (is_http x = false -> fst (purge i amount w) = Raised x).
Proof.
  intros Hg Hch Hp Hmc Hle Hr Hx.
  destruct w as [e resp tr st cfg]; cbn in Hmc, Hr, Hx |- *.
  unfold purge, with_guild; rewrite Hg, Hch, Hp.
  cbv beta iota zeta delta [bind get_config config]. rewrite Hmc.
  cbv beta iota delta [lift ret].
  replace (amount >? int_or mc "max_purge_amount" 100) with false
    by (rewrite Z.gtb_ltb; symmetry; apply Z.ltb_ge; exact Hle).
  norm; rewrite Hr; norm; rewrite Hx; norm.
  unfold forbidden_or_http.
  destruct x; cbn; try (intros; discriminate);
    try (repeat split; rewrite <- ?app_assoc; reflexivity);
    (norm; destruct (e (Send true None _ true false)); cbn; rewrite <- ?app_assoc; repeat split; auto; discriminate).
Qed.

Lemma purge_failure_no_log_witness :
  let w := start ex_purge_forbidden ex_store None in
  ext w (PurgeCall 500 10) = Raises Forbidden /\
  trace (snd (purge ex_inter 10 w)) =
    [Defer true; PurgeCall 500 10;
     Send true None (Some (ErrorEmbed (Txt "I don't have permission to delete messages here."))) true false].
Proof.
  split; [reflexivity|].
  exact (proj1 (proj2 (purge_failure_no_log ex_inter ex_guild (mkChannel 500 true) 10
                         (start ex_purge_forbidden ex_store None) (PDict []) RUnit Forbidden
                         eq_refl eq_refl eq_refl eq_refl ltac:(vm_compute; discriminate)
                         eq_refl eq_refl))).
Defined.




Lemma nanl_filters l :
  Forall no_act_no_log l -> filter is_mod_action l = [] /\ filter is_log_call l = [].
Proof.
  induction 1 as [|c l [Hb Hl] _ [IH1 IH2]]; [split; reflexivity|].
  cbn; rewrite Hb, Hl, IH1, IH2; split; reflexivity.
Qed.

Lemma bind_lift_inl {A B} (a : A) (k : A -> M B) : bind (lift (inl a)) k = k a.
Proof. reflexivity. Qed.

(** The deferral, then a [try] block that starts with one moderation
    action and the log write: one action, and the log write only if that
    action returned. *)
Lemma defer_act_log_counts (ca cl : Call) (T : M unit) (H : Exc -> option (M unit)) w :
  is_mod_action ca = true -> is_log_call ca = false -> is_store_call ca = false ->
  is_mod_action cl = false -> is_log_call cl = true ->
  footprint no_act_no_log T -> (forall x k, H x = Some k -> footprint no_act_no_log k) ->
  exists l, trace (snd ((defer ;; try_except (call_ ca ;; call_ cl ;; T) H) w)) = (trace w ++ l)%list /\
    filter is_mod_action l = [ca] /\
    filter is_log_call l = match ext w ca with Returns _ => [cl] | _ => [] end.
Proof.
  intros Hb1 Hb2 Hb3 Hl1 Hl2 HT HH.
  destruct (fp_defer no_act_no_log (conj eq_refl eq_refl) w) as (He0 & _ & l0 & Ht0 & Hf0 & _).
  destruct (defer w) as [[[]|x] w0] eqn:Hd.
  2:{ exfalso. destruct (defer_run w) as (w' & Hr & _). congruence. }
  cbn in He0, Ht0. rewrite (bind_ok _ _ _ _ _ Hd).
  assert (Hhandler : forall x w1 l1,
             trace w1 = (trace w0 ++ l1)%list ->
             exists l2, trace (snd (match H x with Some k => k w1 | None => (Raised x, w1) end)) =
                        (trace w0 ++ l1 ++ l2)%list /\ Forall no_act_no_log l2).
  { intros x w1 l1 Ht1. destruct (H x) as [k|] eqn:Hk.
    - destruct (HH x k Hk w1) as (_ & _ & l2 & Ht2 & Hf2 & _).
      exists l2; split; [rewrite Ht2, Ht1, app_assoc; reflexivity | exact Hf2].
    - exists []; split; [cbn; rewrite Ht1, app_nil_r; reflexivity | constructor]. }
  destruct (nanl_filters l0 Hf0) as [F01 F02].
  unfold try_except, bind at 1, call_ at 1, bind at 1, call at 1.
  rewrite <- He0.
  destruct (ext w0 ca) as [r|x|x] eqn:Eb.
  - rewrite Hb3. cbv beta iota zeta delta [ret].
    set (w1 := mkWorld (ext w0) (responded w0 || answers ca) (trace w0 ++ [ca])%list (store w0) (config w0)).
    assert (Hc : forall w2 l2, trace w2 = (trace w1 ++ [cl] ++ l2)%list ->
                 Forall no_act_no_log l2 ->
                 exists l, trace w2 = (trace w ++ l)%list /\ filter is_mod_action l = [ca] /\
                           filter is_log_call l = [cl]).
    { intros w2 l2 Ht2 Hf2. exists (l0 ++ ca :: cl :: l2)%list; split.
      - rewrite Ht2; unfold w1; cbn [trace]; rewrite Ht0, <- !app_assoc; reflexivity.
      - destruct (nanl_filters l2 Hf2) as [F1 F2].
        rewrite !filter_app, F01, F02; cbn; rewrite Hb1, Hb2, Hl1, Hl2, F1, F2; split; reflexivity. }
    pose proof (call__trace cl w1) as Tc.
    unfold bind at 1.
    destruct (call_ cl w1) as [[[]|x] w2] eqn:Ec; cbn in Tc.
    + destruct (HT w2) as (_ & _ & l3 & Ht3 & Hf3 & _).
      destruct (T w2) as [[[]|x] w3] eqn:ET; cbn in Ht3.
      * apply (Hc w3 l3); [rewrite Ht3, Tc; unfold w1; cbn [trace]; rewrite <- !app_assoc; reflexivity | exact Hf3].
      * destruct (Hhandler x w3 ((ca :: cl :: l3))%list) as (l4 & Ht4 & Hf4).
        { rewrite Ht3, Tc; unfold w1; cbn [trace]; rewrite <- !app_assoc; reflexivity. }
        apply (Hc _ (l3 ++ l4)%list); [rewrite Ht4; unfold w1; cbn [trace app]; rewrite <- !app_assoc; reflexivity|].
        apply Forall_app; auto.
    + destruct (Hhandler x w2 ([ca; cl])%list) as (l4 & Ht4 & Hf4).
      { rewrite Tc; unfold w1; cbn [trace]; rewrite <- app_assoc; reflexivity. }
      apply (Hc _ l4); [rewrite Ht4; unfold w1; cbn [trace app]; rewrite <- !app_assoc; reflexivity | exact Hf4].
  - cbv beta iota.
    destruct (Hhandler x (mkWorld (ext w0) (responded w0) (trace w0 ++ [ca])%list (store w0) (config w0)) [ca] eq_refl)
      as (l4 & Ht4 & Hf4).
    exists (l0 ++ ca :: l4)%list; split; [rewrite Ht4, Ht0, <- app_assoc; reflexivity|].
    destruct (nanl_filters l4 Hf4) as [F1 F2].
    rewrite !filter_app, F01, F02; cbn; rewrite Hb1, Hb2, F1, F2; split; reflexivity.
  - rewrite Hb3; cbv beta iota zeta.
    destruct (Hhandler x (mkWorld (ext w0) (responded w0) (trace w0 ++ [ca])%list (store w0) (config w0)) [ca] eq_refl)
      as (l4 & Ht4 & Hf4).
    exists (l0 ++ ca :: l4)%list; split; [rewrite Ht4, Ht0, <- app_assoc; reflexivity|].
    destruct (nanl_filters l4 Hf4) as [F1 F2].
    rewrite !filter_app, F01, F02; cbn; rewrite Hb1, Hb2, F1, F2; split; reflexivity.
Qed.

Ltac fp_nanl :=
  fp_solve;
  repeat first [ apply fp_respond_error | apply fp_respond | apply fp_post_modlog
               | split; reflexivity | intros ? ];
  try fp_solve.

(** [kick] past its guards issues exactly one kick call, whatever the
    platform answers, and writes the "kick" log entry only if that call
    returned. *)
Theorem kick_logs_only_after_kick i g author member reason w :
  i_guild i = Some g -> i_user i = IMember author ->
  is_guild_owner g member = false -> outranked g author member = false ->
  let kc := KickCall (mem_id member) (ByModerator reason "Kicked" (mem_id author)) in
  exists l, trace (snd (kick i member reason w)) = (trace w ++ l)%list /\
    filter is_mod_action l = [kc] /\
    filter is_log_call l =
      match ext w kc with
      | Returns _ => [LogAction (guild_id g) "kick" (mem_id member) (mem_id author) (Some reason)]
      | _ => []
      end.
Proof.
  intros Hg Hu Ho Hout kc.
  unfold kick, with_guild_member; rewrite Hg, Hu, Ho, Hout; cbv zeta.
  apply defer_act_log_counts; try reflexivity;
    [fp_nanl | intros x k Hk; unfold forbidden_or_http in Hk; fp_nanl].
Qed.

Lemma kick_logs_only_after_kick_witness :
  is_guild_owner ex_guild ex_target = false /\ outranked ex_guild ex_mod ex_target = false /\
  exists l, trace (snd (kick ex_inter ex_target "r" ex_world)) = l /\
    filter is_mod_action l = [KickCall 3 (ByModerator "r" "Kicked" 2)] /\
    filter is_log_call l = [LogAction 100 "kick" 3 2 (Some "r")].
Proof.
  split; [reflexivity|]. split; [reflexivity|].
  exact (kick_logs_only_after_kick ex_inter ex_guild ex_mod ex_target "r" ex_world
           eq_refl eq_refl eq_refl eq_refl).
Defined.


(** [untimeout] issues exactly one timeout-removal call and writes the
    "untimeout" log entry only if that call returned. *)
Theorem untimeout_logs_only_after_call i g author member w :
  i_guild i = Some g -> i_user i = IMember author ->
  let tc := TimeoutCall (mem_id member) None (TimeoutRemovedBy (mem_id author)) in
  exists l, trace (snd (untimeout i member w)) = (trace w ++ l)%list /\
    filter is_mod_action l = [tc] /\
    filter is_log_call l =
      match ext w tc with
      | Returns _ => [LogAction (guild_id g) "untimeout" (mem_id member) (mem_id author) None]
      | _ => []
      end.
Proof.
  intros Hg Hu tc.
  unfold untimeout, with_guild_member; rewrite Hg, Hu; cbv zeta.
  apply defer_act_log_counts; try reflexivity;
    [fp_nanl | intros x k Hk; unfold forbidden_or_http in Hk; fp_nanl].
Qed.

Lemma untimeout_logs_only_after_call_witness :
  let w := start ex_purge_forbidden ex_store None in
  exists l, trace (snd (untimeout ex_inter ex_target w)) = l /\
    filter is_mod_action l = [TimeoutCall 3 None (TimeoutRemovedBy 2)] /\
    filter is_log_call l = [LogAction 100 "untimeout" 3 2 None].
Proof.
  exact (untimeout_logs_only_after_call ex_inter ex_guild ex_mod ex_target
           (start ex_purge_forbidden ex_store None) eq_refl eq_refl).
Defined.


(** [timeout] past its guards, with a duration [timedelta] accepts,
    issues exactly one timeout call for that many minutes and writes the
    "timeout" log entry only if that call returned. *)
Theorem timeout_logs_only_after_call i g author member duration reason w :
  i_guild i = Some g -> i_user i = IMember author -> outranked g author member = false ->
  -999999999 <= duration / 1440 <= 999999999 ->
  let tc := TimeoutCall (mem_id member) (Some duration) (ByModerator reason "Timed out" (mem_id author)) in
  exists l, trace (snd (timeout i member duration reason w)) = (trace w ++ l)%list /\
    filter is_mod_action l = [tc] /\
    filter is_log_call l =
      match ext w tc with
      | Returns _ => [LogAction (guild_id g) "timeout" (mem_id member) (mem_id author) (Some reason)]
      | _ => []
      end.
Proof.
  intros Hg Hu Hout Hd tc.
  assert (Hm : py_timedelta_minutes (PInt duration) = inl duration).
  { unfold py_timedelta_minutes. rewrite (proj2 (Z.leb_le _ _) (proj1 Hd)),
      (proj2 (Z.leb_le _ _) (proj2 Hd)); reflexivity. }
  unfold timeout, with_guild_member; rewrite Hg, Hu, Hout, Hm, bind_lift_inl; cbv zeta.
  apply defer_act_log_counts; try reflexivity;
    [fp_nanl | intros x k Hk; unfold forbidden_or_http in Hk; fp_nanl].
Qed.

Lemma timeout_logs_only_after_call_witness :
  let w := start ex_timeout_forbidden ex_store None in
  -999999999 <= 60 / 1440 <= 999999999 /\
  exists l, trace (snd (timeout ex_inter ex_target 60 "r" w)) = l /\
    filter is_mod_action l = [TimeoutCall 3 (Some 60) (ByModerator "r" "Timed out" 2)] /\
    filter is_log_call l = [].
Proof.
  split; [vm_compute; split; discriminate|].
  exact (timeout_logs_only_after_call ex_inter ex_guild ex_mod ex_target 60 "r"
           (start ex_timeout_forbidden ex_store None) eq_refl eq_refl eq_refl
           ltac:(vm_compute; split; discriminate)).
Defined.


(** [timeout] with a duration beyond [timedelta]'s range fails with
    [OverflowError] after the deferral: no timeout call, no log entry, no
    reply; the Forbidden/HTTP handlers do not catch it. *)
Theorem timeout_overflow_raises i g author member duration reason w :
  i_guild i = Some g -> i_user i = IMember author -> outranked g author member = false ->
  ~ (-999999999 <= duration / 1440 <= 999999999) ->
  fst (timeout i member duration reason w) = Raised OverflowError /\
  trace (snd (timeout i member duration reason w)) =
    (trace w ++ (if responded w then [] else [Defer true]))%list /\
  store (snd (timeout i member duration reason w)) = store w.
Proof.
  intros Hg Hu Hout Hd.
  assert (Hm : py_timedelta_minutes (PInt duration) = inl duration \/
               py_timedelta_minutes (PInt duration) = inr OverflowError).
  { unfold py_timedelta_minutes.
    destruct (-999999999 <=? duration / 1440) eqn:E1, (duration / 1440 <=? 999999999) eqn:E2;
      cbn; auto. }
  destruct Hm as [Hm|Hm].
  { exfalso; apply Hd. unfold py_timedelta_minutes in Hm.
    destruct (-999999999 <=? duration / 1440) eqn:E1, (duration / 1440 <=? 999999999) eqn:E2;
      cbn in Hm; try discriminate. apply Z.leb_le in E1, E2; lia. }
  unfold timeout, with_guild_member; rewrite Hg, Hu, Hout, Hm.
  destruct w as [e resp tr st cfg]; cbn.
  unfold defer, bind, is_done; cbn.
  destruct resp; cbn.
  - rewrite app_nil_r; auto.
  - unfold try_except, call_, bind, call, ret; cbn.
    destruct (e (Defer true)); cbn; auto.
Qed.

Lemma timeout_overflow_raises_witness :
  ~ (-999999999 <= 1440000000000 / 1440 <= 999999999) /\
  fst (timeout ex_inter ex_target 1440000000000 "r" ex_world) = Raised OverflowError /\
  trace (snd (timeout ex_inter ex_target 1440000000000 "r" ex_world)) = [Defer true].
Proof.
  assert (H : ~ (-999999999 <= 1440000000000 / 1440 <= 999999999))
    by (vm_compute; intros [_ H]; apply H; reflexivity).
  split; [exact H|].
  destruct (timeout_overflow_raises ex_inter ex_guild ex_mod ex_target 1440000000000 "r" ex_world
              eq_refl eq_refl eq_refl H) as (H1 & H2 & _).
  split; [exact H1 | exact H2].
Defined.



Lemma fp_warn_auto_action_nostore member n :
  footprint (fun c => is_store_call c = false) (warn_auto_action member n).
Proof. unfold warn_auto_action, bot_config; cbv zeta; fp_solve; reflexivity. Qed.

Lemma warn_auto_disabled member n w mc a :
  moderation_config (config w) = inl mc ->
  threshold_action mc = inl a ->
  (int_or mc "warn_threshold" 0 <= 0 \/ a = lit "none") ->
  warn_auto_action member n w = (Ok tt, w).
Proof.
  intros Hmc Ha Hd. unfold warn_auto_action.
  cbv beta iota zeta delta [bind get_config]. rewrite Hmc.
  cbv beta iota delta [lift ret]. rewrite Ha.
  destruct Hd as [Hd|Hd].
  - rewrite (proj2 (Z.leb_le _ _) Hd); reflexivity.
  - subst a. lits. destruct (int_or mc "warn_threshold" 0 <=? 0); reflexivity.
Qed.

Lemma warn_auto_kick_ban_run member n w mc a :
  all_succeed (ext w) -> moderation_config (config w) = inl mc ->
  0 < int_or mc "warn_threshold" 0 ->
  threshold_action mc = inl a ->
  a = lit "kick" \/ a = lit "ban" ->
  fst (warn_auto_action member n w) = Ok tt /\
  exists l, trace (snd (warn_auto_action member n w)) = (trace w ++ l)%list /\
    filter is_mod_action l =
      if int_or mc "warn_threshold" 0 <=? n then
        [if str_eqb a (lit "kick")
         then KickCall (mem_id member) (ReachedWarnings (int_or mc "warn_threshold" 0))
         else BanCall (mem_id member) (ReachedWarnings (int_or mc "warn_threshold" 0))]
      else [].
Proof.
  intros Hs Hmc Ht Hta Ha.
  destruct w as [e resp tr st cfg]; cbn in Hs, Hmc |- *.
  unfold warn_auto_action.
  cbv beta iota zeta delta [bind get_config config]. rewrite Hmc.
  cbv beta iota delta [lift ret]. rewrite Hta.
  replace (int_or mc "warn_threshold" 0 <=? 0) with false by (symmetry; apply Z.leb_gt; lia).
  rewrite Z.geb_leb.
  destruct (int_or mc "warn_threshold" 0 <=? n);
  destruct Ha as [Ha|Ha]; subst a; lits;
    run_calls Hs; lits; (split; [reflexivity|]);
    first [ exists []; rewrite app_nil_r; split; reflexivity
          | rewrite <- ?app_assoc; cbn [app];
            match goal with |- exists l, (_ ++ ?L)%list = _ /\ _ =>
              exists L; split; reflexivity end ].
Qed.

(** [warn] past its guards, on a platform where every call returns,
    stores exactly one more warning for the member, whatever the
    configuration, even when the threshold auto action then raises. *)
Theorem warn_stores_one_warning i g author member reason w :
  i_guild i = Some g -> i_user i = IMember author -> outranked g author member = false ->
  all_succeed (ext w) ->
  warning_count (store (snd (warn i member reason w))) (guild_id g) (mem_id member) =
    S (warning_count (store w) (guild_id g) (mem_id member)).
Proof.
  intros Hg Hu Hout Hs.
  destruct (warn_run_prefix i g author member reason w Hg Hu Hout Hs)
    as (w1 & l & Heq & _ & _ & _ & _ & Hcount).
  rewrite Heq.
  match goal with |- context [warn_auto_action member ?n w1] =>
    destruct (fp_warn_auto_action_nostore member n w1) as (_ & _ & l2 & _ & Hf2 & Hst2)
  end.
  rewrite (Hst2 Hf2); exact Hcount.
Qed.

Lemma warn_stores_one_warning_witness :
  let w := start ex_ok ex_store_two (Some ex_cfg_no_duration) in
  fst (warn ex_inter ex_target "spam" w) = Raised KeyError /\
  warning_count (store (snd (warn ex_inter ex_target "spam" w))) 100 3 = 3%nat.
Proof.
  split; [reflexivity|].
  exact (warn_stores_one_warning ex_inter ex_guild ex_mod ex_target "spam"
           (start ex_ok ex_store_two (Some ex_cfg_no_duration)) eq_refl eq_refl eq_refl
           ex_ok_all_succeed).
Defined.


(** With [warn_threshold] not positive (0 when absent or when Python's
    [int] rejects it; [int] accepts e.g. Unicode decimal digits and strips
    Unicode whitespace) or the action "none" (the default), [warn] completes
    and issues no moderation action, provided [str] of the configured
    action does not raise (it only raises on an integer of 4300 or more
    digits). *)
Theorem warn_auto_action_disabled i g author member reason w mc a :
  i_guild i = Some g -> i_user i = IMember author -> outranked g author member = false ->
  all_succeed (ext w) -> moderation_config (config w) = inl mc ->
  threshold_action mc = inl a ->
  (int_or mc "warn_threshold" 0 <= 0 \/ a = lit "none") ->
  fst (warn i member reason w) = Ok tt /\
  exists l, trace (snd (warn i member reason w)) = (trace w ++ l)%list /\
    filter is_mod_action l = [].
Proof.
  intros Hg Hu Hout Hs Hmc Ha Hd.
  destruct (warn_run_prefix i g author member reason w Hg Hu Hout Hs)
    as (w1 & l & Heq & Ht & Hf & _ & Hc & _).
  rewrite Heq, warn_auto_disabled with (mc := mc) (a := a); [|congruence|exact Ha|exact Hd].
  split; [reflexivity|]. exists l; split; assumption.
Qed.

Lemma warn_auto_action_disabled_witness :
  int_or (PDict []) "warn_threshold" 0 <= 0 /\
  fst (warn ex_inter ex_target "spam" (start ex_ok ex_store_two None)) = Ok tt /\
  exists l, trace (snd (warn ex_inter ex_target "spam" (start ex_ok ex_store_two None))) = l /\
    filter is_mod_action l = [].
Proof.
  assert (H : int_or (PDict []) "warn_threshold" 0 <= 0) by (vm_compute; discriminate).
  split; [exact H|].
  destruct (warn_auto_action_disabled ex_inter ex_guild ex_mod ex_target "spam"
              (start ex_ok ex_store_two None) (PDict []) (lit "none") eq_refl eq_refl eq_refl
              ex_ok_all_succeed eq_refl eq_refl (or_introl H)) as [H1 (l & H2 & H3)].
  split; [exact H1|]. exists l; split; [exact H2 | exact H3].
Defined.


(** With a positive threshold and the action "kick" or "ban" (after
    Python's [str.lower], so "Kick" or a Kelvin sign in place of the "k"
    count as "kick"), [warn] completes and issues exactly one kick (or ban)
    of the member once the updated warning count reaches the threshold, and
    no moderation action below it. *)
Theorem warn_auto_kick_ban i g author member reason w mc a :
  i_guild i = Some g -> i_user i = IMember author -> outranked g author member = false ->
  all_succeed (ext w) -> moderation_config (config w) = inl mc ->
  0 < int_or mc "warn_threshold" 0 ->
  threshold_action mc = inl a ->
  a = lit "kick" \/ a = lit "ban" ->
  let t := int_or mc "warn_threshold" 0 in
  let n := Z.of_nat (S (warning_count (store w) (guild_id g) (mem_id member))) in
  fst (warn i member reason w) = Ok tt /\
  exists l, trace (snd (warn i member reason w)) = (trace w ++ l)%list /\
    filter is_mod_action l =
      if t <=? n then
        [if str_eqb a (lit "kick")
         then KickCall (mem_id member) (ReachedWarnings t)
         else BanCall (mem_id member) (ReachedWarnings t)]
      else [].
Proof.
  intros Hg Hu Hout Hs Hmc Ht Hta Ha t n.
  destruct (warn_run_prefix i g author member reason w Hg Hu Hout Hs)
    as (w1 & l & Heq & Ht1 & Hf & He & Hc & _).
  rewrite Heq.
  assert (Hs1 : all_succeed (ext w1)) by (rewrite He; exact Hs).
  assert (Hmc1 : moderation_config (config w1) = inl mc) by (rewrite Hc; exact Hmc).
  destruct (warn_auto_kick_ban_run member n w1 mc a Hs1 Hmc1 Ht Hta Ha) as (Hok & l2 & Ht2 & Hf2).
  unfold n in Hok, Ht2, Hf2.
  split; [exact Hok|].
  exists (l ++ l2)%list; split.
  - rewrite Ht2, Ht1, app_assoc; reflexivity.
  - rewrite filter_app, Hf, Hf2; reflexivity.
Qed.

Lemma warn_auto_kick_ban_witness :
  let w := start ex_ok ex_store (Some ex_cfg_kick_mixed_case) in
  threshold_action (PDict [("warn_threshold_action", PStr [8490; 105; 99; 107])]) = inl (lit "kick") /\
  threshold_action (PDict [("warn_threshold", PInt 1); ("warn_threshold_action", PStr (lit "Kick"))]) = inl (lit "kick") /\
  fst (warn ex_inter ex_target "spam" w) = Ok tt /\
  exists l, trace (snd (warn ex_inter ex_target "spam" w)) = l /\
    filter is_mod_action l = [KickCall 3 (ReachedWarnings 1)].
Proof.
  split; [vm_compute; reflexivity|].
  split; [vm_compute; reflexivity|].
  exact (warn_auto_kick_ban ex_inter ex_guild ex_mod ex_target "spam"
           (start ex_ok ex_store (Some ex_cfg_kick_mixed_case))
           (PDict [("warn_threshold", PInt 1); ("warn_threshold_action", PStr (lit "Kick"))])
           (lit "kick") eq_refl eq_refl eq_refl ex_ok_all_succeed eq_refl eq_refl
           ltac:(vm_compute; reflexivity) (or_introl eq_refl)).
Defined.




Lemma filter_clear_other g m g' m' (ws : list Warning) :
  (g' <> g \/ m' <> m) ->
  filter (of_member g' m') (filter (fun w => negb (of_member g m w)) ws) =
  filter (of_member g' m') ws.
Proof.
  intros Hne. induction ws as [|x ws IH]; [reflexivity|]. cbn.
  destruct (of_member g m x) eqn:E1; cbn.
  - destruct (of_member g' m' x) eqn:E2; [|exact IH].
    exfalso. unfold of_member in E1, E2.
    apply andb_true_iff in E1 as [E1 E1']; apply andb_true_iff in E2 as [E2 E2'].
    apply Z.eqb_eq in E1, E1', E2, E2'. destruct Hne; congruence.
  - destruct (of_member g' m' x); [f_equal|]; exact IH.
Qed.

Lemma filter_clear_same g m (ws : list Warning) :
  filter (of_member g m) (filter (fun w => negb (of_member g m w)) ws) = [].
Proof.
  induction ws as [|x ws IH]; [reflexivity|]. cbn.
  destruct (of_member g m x) eqn:E; cbn; [exact IH|]. rewrite E; exact IH.
Qed.

(** [clearwarnings] on a platform where every call returns: the member's
    warnings in the guild are all removed, every other member's (and
    guild's) warnings kept, no log entry written, and the reply is the
    number of warnings removed. *)
Theorem clearwarnings_clears i g member w :
  i_guild i = Some g -> all_succeed (ext w) ->
  let gid := guild_id g in
  let mid := mem_id member in
  fst (clearwarnings i member w) = Ok tt /\
  warning_count (store (snd (clearwarnings i member w))) gid mid = 0%nat /\
  (forall g' m', g' <> gid \/ m' <> mid ->
     member_warnings (store (snd (clearwarnings i member w))) g' m' =
     member_warnings (store w) g' m') /\
  action_log (store (snd (clearwarnings i member w))) = action_log (store w) /\
  trace (snd (clearwarnings i member w)) =
    (trace w ++ (if responded w then [] else [Defer true]) ++
     [ClearWarnings gid mid;
      Send true (Some (ClearedWarnings (Z.of_nat (warning_count (store w) gid mid)) mid))
        None true false])%list.
Proof.
  intros Hg Hs gid mid.
  destruct w as [e resp tr st cfg]; cbn in Hs |- *.
  destruct st as [ws al ss nid hd hr].
  unfold clearwarnings, with_guild; rewrite Hg.
  norm; destruct resp; run_calls Hs; cbv [with_warnings]; norm.
  all: unfold warning_count, member_warnings; cbn [warnings].
  all: split; [reflexivity|].
  all: split; [unfold gid, mid; rewrite filter_clear_same; reflexivity|].
  all: split; [intros g' m' Hne; apply filter_clear_other; exact Hne|].
  all: split; [reflexivity|].
  all: rewrite <- !app_assoc; reflexivity.
Qed.

Lemma clearwarnings_clears_witness :
  let w := start ex_ok ex_store_two None in
  warning_count (store (snd (clearwarnings ex_inter ex_target w))) 100 3 = 0%nat /\
  trace (snd (clearwarnings ex_inter ex_target w)) =
    [Defer true; ClearWarnings 100 3; Send true (Some (ClearedWarnings 2 3)) None true false].
Proof.
  destruct (clearwarnings_clears ex_inter ex_guild ex_target (start ex_ok ex_store_two None)
              eq_refl ex_ok_all_succeed) as (_ & H1 & _ & _ & H2).
  split; [exact H1 | exact H2].
Defined.


(** If [clear_warnings] raises, the store is unchanged when the call
    had no effect, and holds the member's warnings cleared when the call
    completed although the caller saw the exception ([asyncio.wait_for]
    gives up on the call after 10 s but cannot undo it).  Either way a
    timeout is answered with the retry message, and any other exception
    escapes [clearwarnings] with no reply of its own. *)
Theorem clearwarnings_store_failure i g member w x :
  i_guild i = Some g ->
  let gid := guild_id g in
  let mid := mem_id member in
  ext w (ClearWarnings gid mid) = Raises x \/ ext w (ClearWarnings gid mid) = RaisesLate x ->
  store (snd (clearwarnings i member w)) =
    match ext w (ClearWarnings gid mid) with
    | RaisesLate _ => snd (store_step (ClearWarnings gid mid) (store w))
    | _ => store w
    end /\
  (is_timeout x = true -> exists d,
     trace (snd (clearwarnings i member w)) =
       (trace w ++ (if responded w then [] else [Defer true]) ++
        [ClearWarnings gid mid;
         Send d None (Some (ErrorEmbed (Txt "DB timed out while clearing warnings. Try again.")))
           true false])%list) /\
  (is_timeout x = false ->
     fst (clearwarnings i member w) = Raised x /\
     trace (snd (clearwarnings i member w)) =
       (trace w ++ (if responded w then [] else [Defer true]) ++ [ClearWarnings gid mid])%list).
Proof.
  intros Hg gid mid Hx. unfold gid, mid in *.
  destruct w as [e resp tr st cfg]; cbn in Hx |- *.
  unfold clearwarnings, with_guild; rewrite Hg.
  destruct Hx as [Hx|Hx];
  norm; destruct resp; norm;
    try (destruct (e (Defer true)); norm);
    rewrite Hx; norm; destruct x; cbv [is_timeout]; norm;
    try (split; [reflexivity | split; [intros H; discriminate | intros _; rewrite <- ?app_assoc; split; reflexivity]]);
    (match goal with |- context [e (Send ?d ?c ?em ?ep ?v)] => destruct (e (Send d c em ep v)) end);
    norm; (split; [reflexivity | split; [intros _; eexists; rewrite <- ?app_assoc; reflexivity | intros H; discriminate]]).
Qed.

Lemma clearwarnings_store_failure_witness :
  let w := start ex_clear_timeout_late ex_store_two None in
  warning_count (store (snd (clearwarnings ex_inter ex_target w))) 100 3 = 0%nat /\
  exists d, trace (snd (clearwarnings ex_inter ex_target w)) =
    [Defer true; ClearWarnings 100 3;
     Send d None (Some (ErrorEmbed (Txt "DB timed out while clearing warnings. Try again."))) true false].
Proof.
  destruct (clearwarnings_store_failure ex_inter ex_guild ex_target
              (start ex_clear_timeout_late ex_store_two None) TimeoutError eq_refl
              (or_intror eq_refl))
    as (H1 & H2 & _).
  split; [rewrite H1; reflexivity | exact (H2 eq_refl)].
Defined.





(** [warnings] on a platform where every call returns leaves the store
    unchanged and answers with "no warnings" or with the total count and
    the first ten (newest) warnings. *)
Theorem warnings_cmd_lists i g member w :
  i_guild i = Some g -> all_succeed (ext w) ->
  let gid := guild_id g in
  let mid := mem_id member in
  let ws := member_warnings (store w) gid mid in
  fst (warnings_cmd i member w) = Ok tt /\
  store (snd (warnings_cmd i member w)) = store w /\
  trace (snd (warnings_cmd i member w)) =
    (trace w ++ (if responded w then [] else [Defer true]) ++
     [GetWarnings gid mid;
      match ws with
      | [] => Send true (Some (NoWarnings mid)) None true false
      | _ => Send true None (Some (WarningsFor mid (Z.of_nat (length ws)) (firstn 10 ws))) true false
      end])%list.
Proof.
  intros Hg Hs gid mid ws.
  destruct w as [e resp tr st cfg]; cbn in Hs |- *.
  unfold warnings_cmd, with_guild; rewrite Hg.
  norm; destruct resp; run_calls Hs; unfold warnings_of, ws, gid, mid; cbn [store];
    destruct (member_warnings st (guild_id g) (mem_id member)); run_calls Hs;
    rewrite <- ?app_assoc; repeat split; reflexivity.
Qed.

Lemma warnings_cmd_lists_witness :
  trace (snd (warnings_cmd ex_inter ex_target (start ex_ok ex_store_two None))) =
    [Defer true; GetWarnings 100 3;
     Send true None (Some (WarningsFor 3 2 (warnings ex_store_two))) true false].
Proof.
  exact (proj2 (proj2 (warnings_cmd_lists ex_inter ex_guild ex_target
                         (start ex_ok ex_store_two None) eq_refl ex_ok_all_succeed))).
Defined.


(** [warnings] never writes the store, whatever the platform answers. *)
Theorem warnings_cmd_read_only i member :
  footprint (fun c => is_store_write c = false) (warnings_cmd i member).
Proof.
  unfold warnings_cmd, with_guild; destruct (i_guild i);
    [| apply fp_respond; reflexivity].
  fp_solve; try reflexivity;
    repeat first [ apply fp_respond_error | apply fp_respond | apply fp_defer
                 | reflexivity | intros ? ];
    try fp_solve.
Qed.

(** [unwarn] with [delete_warning] available deletes the latest warning by
    [latest.get("id") or latest.get("warning_id") or latest.get("_id")]:
    Python's [or] passes over a missing or 0 id to the next key.  When that
    is None it falls back to [remove_warning] if available, else writes
    nothing; a removal is followed by the "unwarn" log entry. *)
Theorem unwarn_removal_choice i g member w latest rest :
  i_guild i = Some g -> all_succeed (ext w) ->
  has_delete_warning (store w) = true ->
  member_warnings (store w) (guild_id g) (mem_id member) = latest :: rest ->
  let log := LogAction (guild_id g) "unwarn" (mem_id member) (invoker_id (i_user i))
               (Some "Removed latest warning") in
  exists l, trace (snd (unwarn i member w)) = (trace w ++ l)%list /\
    filter is_store_write l =
      match py_or (py_or (w_id latest) (w_warning_id latest)) (w__id latest) with
      | Some z => [DeleteWarning (guild_id g) z; log]
      | None => if has_remove_warning (store w)
                then [RemoveWarning (guild_id g) (mem_id member); log] else []
      end.
Proof.
  intros Hg Hs Hd Em log.
  destruct w as [e resp tr st cfg]; cbn in Hs, Hd, Em |- *.
  destruct st as [ws al ss nid hd hr]; cbn in Hd |- *; subst hd.
  unfold unwarn, with_guild; rewrite Hg.
  norm; destruct resp; run_calls Hs; unfold warnings_of; rewrite Em; norm;
    destruct (py_or _ _); destruct hr; run_calls Hs;
    rewrite <- ?app_assoc; cbn [app];
    match goal with |- exists l, (_ ++ ?L)%list = _ /\ _ => exists L; split; reflexivity end.
Qed.

Lemma unwarn_removal_choice_witness :
  let w := start ex_ok ex_store_zero_id None in
  exists l, trace (snd (unwarn ex_inter ex_target w)) = l /\
    filter is_store_write l =
      [DeleteWarning 100 5; LogAction 100 "unwarn" 3 2 (Some "Removed latest warning")].
Proof.
  exact (unwarn_removal_choice ex_inter ex_guild ex_target (start ex_ok ex_store_zero_id None)
           (mkWarning (Some 0) (Some 5) None 100 3 2 "spam") [] eq_refl ex_ok_all_succeed
           eq_refl eq_refl).
Defined.



(** [cog_load] syncs nothing unless the configuration is a dictionary
    whose "discord" dictionary has a truthy "sync_app_commands". *)
Theorem cog_load_needs_flag cfg sync :
  cog_load cfg sync <> [] ->
  exists d dd v, cfg = Some (PDict d) /\ assoc "discord" d = Some (PDict dd) /\
    assoc "sync_app_commands" dd = Some v /\ truthy v = true.
Proof.
  unfold cog_load. intros H.
  destruct cfg as [v0|]; [|cbn in H; contradiction].
  destruct (truthy v0) eqn:Tv; [|cbn in H; contradiction].
  destruct v0 as [| | | | |d]; cbn in H; try contradiction.
  destruct (assoc "discord" d) as [[| | | | |dd]|] eqn:Ed; try contradiction.
  destruct (assoc "sync_app_commands" dd) as [v|] eqn:Ev; cbn in H; [|contradiction].
  destruct (truthy v) eqn:Et; cbn in H; [|contradiction].
  exists d, dd, v; auto.
Qed.

Lemma cog_load_needs_flag_witness :
  cog_load (Some (PDict [("discord", PDict ex_sync_discord)])) (fun _ => true) <> [] /\
  exists d dd v, Some (PDict [("discord", PDict ex_sync_discord)]) = Some (PDict d) /\
    assoc "discord" d = Some (PDict dd) /\ assoc "sync_app_commands" dd = Some v /\ truthy v = true.
Proof.
  assert (H : cog_load (Some (PDict [("discord", PDict ex_sync_discord)])) (fun _ => true) <> [])
    by (vm_compute; discriminate).
  exact (conj H (cog_load_needs_flag _ _ H)).
Defined.


Lemma sync_guilds_all sync gids zs :
  Forall2 (fun v z => py_int v = inl z) gids zs ->
  (forall z, In z zs -> sync (SyncGuild z) = true) ->
  sync_guilds sync gids = map SyncGuild zs.
Proof.
  induction 1 as [|v z gids zs Hv _ IH]; intros Hok; [reflexivity|].
  cbn; rewrite Hv, (Hok z (or_introl eq_refl)), IH; [reflexivity|].
  intros y Hy; apply Hok; right; exact Hy.
Qed.

Lemma sync_guilds_stop sync gids1 zs1 gz gids2 :
  Forall2 (fun v z => py_int v = inl z) gids1 zs1 ->
  (forall y, In y zs1 -> sync (SyncGuild y) = true) ->
  (forall e, py_int gz = inr e -> sync_guilds sync (gids1 ++ gz :: gids2) = map SyncGuild zs1) /\
  (forall z, py_int gz = inl z -> sync (SyncGuild z) = false ->
     sync_guilds sync (gids1 ++ gz :: gids2) = map SyncGuild (zs1 ++ [z])).
Proof.
  induction 1 as [|v y gids1 zs1 Hv _ IH]; intros Hok.
  - split; intros; cbn; rewrite H; [reflexivity|]. rewrite H0; reflexivity.
  - destruct IH as [IH1 IH2]; [intros y' Hy'; apply Hok; right; exact Hy'|].
    cbn [app sync_guilds]; rewrite Hv, (Hok y (or_introl eq_refl)).
    split; [intros e He | intros z Hz Hf]; cbn [map app]; f_equal; eauto.
Qed.

(** With the sync flag set, [cog_load] syncs globally once when
    "sync_guild_ids" is not a non-empty list; otherwise it syncs each guild
    in list order (ids converted with [int]), and the first [int] failure
    or failing sync ends the loop, with no global sync as fallback. *)
Theorem cog_load_sync_targets d dd sync :
  assoc "discord" d = Some (PDict dd) ->
  (exists v, assoc "sync_app_commands" dd = Some v /\ truthy v = true) ->
  let cfg := Some (PDict d) in
  (match assoc "sync_guild_ids" dd with Some (PList (_ :: _)) => False | _ => True end ->
     cog_load cfg sync = [SyncGlobal]) /\
  (forall gids zs, assoc "sync_guild_ids" dd = Some (PList gids) -> gids <> [] ->
     Forall2 (fun v z => py_int v = inl z) gids zs ->
     (forall z, In z zs -> sync (SyncGuild z) = true) ->
     cog_load cfg sync = map SyncGuild zs) /\
  (forall gids1 zs1 gz gids2,
     assoc "sync_guild_ids" dd = Some (PList (gids1 ++ gz :: gids2)) ->
     Forall2 (fun v z => py_int v = inl z) gids1 zs1 ->
     (forall y, In y zs1 -> sync (SyncGuild y) = true) ->
     (forall e, py_int gz = inr e -> cog_load cfg sync = map SyncGuild zs1) /\
     (forall z, py_int gz = inl z -> sync (SyncGuild z) = false ->
        cog_load cfg sync = map SyncGuild (zs1 ++ [z]))).
Proof.
  intros Hd (v & Hv & Ht) cfg.
  assert (Hc : cog_load cfg sync =
               match assoc "sync_guild_ids" dd with
               | Some (PList ((_ :: _) as gids)) => sync_guilds sync gids
               | _ => [SyncGlobal]
               end).
  { unfold cog_load, cfg. rewrite (truthy_dict_assoc _ _ _ Hd), Hd, Hv, Ht. reflexivity. }
  rewrite Hc. split; [|split].
  - destruct (assoc "sync_guild_ids" dd) as [[| | | | [|x l]|]|]; tauto.
  - intros gids zs Hg Hne Hf Hok. rewrite Hg.
    destruct gids as [|x l]; [contradiction|]. apply sync_guilds_all; assumption.
  - intros gids1 zs1 gz gids2 Hg Hf Hok. rewrite Hg.
    destruct (sync_guilds_stop sync gids1 zs1 gz gids2 Hf Hok) as [S1 S2].
    destruct gids1; exact (conj S1 S2).
Qed.

Lemma cog_load_sync_targets_witness :
  cog_load (Some (PDict [("discord", PDict ex_sync_discord)])) (fun _ => true) =
    [SyncGuild 1; SyncGuild 2].
Proof.
  exact (proj1 (proj2 (cog_load_sync_targets [("discord", PDict ex_sync_discord)] ex_sync_discord
                         (fun _ => true) eq_refl (ex_intro _ (PBool true) (conj eq_refl eq_refl))))
           [PInt 1; PStr (lit " 2 ")] [1; 2] eq_refl ltac:(discriminate)
           (Forall2_cons (PInt 1) 1 eq_refl (Forall2_cons (PStr (lit " 2 ")) 2 eq_refl (Forall2_nil _)))
           (fun _ _ => eq_refl)).
Defined.



(** [unban] of a user the platform reports as not found, at the fetch or
    at the unban, answers "User not found or not banned." and writes no log
    entry. *)
Theorem unban_not_found i g author s w uid :
  i_guild i = Some g -> i_user i = IMember author -> isdigit (clean_user_id s) = true ->
  int_of_str (clean_user_id s) = inl uid ->
  let dpart := if responded w then [] else [Defer true] in
  let reply d := Send d None (Some (ErrorEmbed (Txt "User not found or not banned."))) true false in
  (ext w (FetchUser uid) = Raises NotFound ->
     store (snd (unban i s w)) = store w /\
     exists d, trace (snd (unban i s w)) = (trace w ++ dpart ++ [FetchUser uid; reply d])%list) /\
  (forall r, ext w (FetchUser uid) = Returns r -> ext w (UnbanCall uid) = Raises NotFound ->
     store (snd (unban i s w)) = store w /\
     exists d, trace (snd (unban i s w)) =
       (trace w ++ dpart ++ [FetchUser uid; UnbanCall uid; reply d])%list).
Proof.
  intros Hg Hu Hd Hi dpart reply.
  destruct w as [e resp tr st cfg]; cbn in *.
  unfold unban, with_guild_member; rewrite Hg, Hu; cbv zeta; rewrite Hd, Hi.
  split; [intros Hf | intros r Hf Hb];
  norm; destruct resp; norm; try (destruct (e (Defer true)); norm);
    rewrite Hf; norm; try (rewrite Hb; norm); cbv [is_notfound]; norm;
    (match goal with |- context [e (Send ?d ?c ?em ?ep ?v)] => destruct (e (Send d c em ep v)) end);
    norm; (split; [reflexivity | eexists; unfold dpart, reply; rewrite <- ?app_assoc; reflexivity]).
Qed.

Lemma unban_not_found_witness :
  let w := start ex_fetch_not_found ex_store None in
  isdigit (clean_user_id (lit "<@42>")) = true /\
  int_of_str (clean_user_id (lit "<@42>")) = inl 42 /\
  store (snd (unban ex_inter (lit "<@42>") w)) = ex_store /\
  exists d, trace (snd (unban ex_inter (lit "<@42>") w)) =
    [Defer true; FetchUser 42;
     Send d None (Some (ErrorEmbed (Txt "User not found or not banned."))) true false].
Proof.
  assert (H1 : isdigit (clean_user_id (lit "<@42>")) = true) by (vm_compute; reflexivity).
  assert (H2 : int_of_str (clean_user_id (lit "<@42>")) = inl 42) by (vm_compute; reflexivity).
  split; [exact H1|]. split; [exact H2|].
  exact (proj1 (unban_not_found ex_inter ex_guild ex_mod (lit "<@42>")
                  (start ex_fetch_not_found ex_store None) 42 eq_refl eq_refl H1 H2) eq_refl).
Defined.
